(** * sphinx-kconfig: a shallow embedding of [sphinx_kconfig/__init__.py]

    The extension is glue around two hosts: the [kconfiglib] parser, whose
    symbol/choice graph it reads, and Sphinx, whose environment it updates.
    The development follows the layout of the Python module:

    - [Py]             the Python values and builtins the module relies on;
    - [kconfiglib]     the part of the library's data model that is read;
    - [sc_fmt], [kconfig_build_resources]   the database builder;
    - [KconfigDomain]  the cross-reference registry;
    - [KconfigSearch]  the search directive;
    - [kconfig_load]   the loader, over an explicit working directory.

    Definitions come first, the properties of each component after them. *)

From Stdlib Require Import List String Ascii ZArith Bool Lia.
From Stdlib Require Import Permutation Sorted DecimalString DecimalZ.
Import ListNotations.
Open Scope string_scope.

(* ================================================================== *)
(** * Python values and builtins *)

Module Py.

(** The double quote character, for the HTML attributes of [sc_fmt]. *)
Definition dq : string := String (ascii_of_nat 34) EmptyString.

(** Truth value of [Optional[str]]: [None] and the empty string are false. *)
Definition truthy (o : option string) : bool :=
  match o with
  | None => false
  | Some s => negb (s =? EmptyString)
  end.

(** Truth value of an optional tuple: a 2-tuple is always true. *)
Definition is_some {A : Type} (o : option A) : bool :=
  match o with
  | None => false
  | Some _ => true
  end.

(** [f"{x}"] for [x : Optional[str]]. *)
Definition fmt (o : option string) : string :=
  match o with
  | None => "None"
  | Some s => s
  end.

(** [str(i)] for an [int]. *)
Definition str_of_int (i : Z) : string := NilZero.string_of_int (Z.to_int i).

(** [needle in hay] for two [str]. *)
Definition contains (needle hay : string) : bool :=
  match index 0 needle hay with
  | Some _ => true
  | None => false
  end.

(** [x in l] for a list of [str]. *)
Definition mem (x : string) (l : list string) : bool := existsb (String.eqb x) l.

(** [sorted(l, key=key)] for string keys: the sort is stable and compares the
    keys only, by code point.  UTF-8 keeps the code point order, so the
    comparison of byte strings is the comparison Python makes. *)
Fixpoint insert_by {A : Type} (key : A -> string) (x : A) (l : list A) : list A :=
  match l with
  | [] => [x]
  | y :: l' =>
      if String.leb (key x) (key y) then x :: l else y :: insert_by key x l'
  end.

Fixpoint sorted {A : Type} (key : A -> string) (l : list A) : list A :=
  match l with
  | [] => []
  | x :: l' => insert_by key x (sorted key l')
  end.

(** Exceptions the module raises or lets through. *)
Inductive exn : Type :=
| ExtensionError (msg : string)
| AttributeError
| IndexError
| OSError
| KconfigError.

Inductive result (A : Type) : Type :=
| Ok (a : A)
| Raise (e : exn).
Arguments Ok {A} a.
Arguments Raise {A} e.

Definition bind {A B : Type} (r : result A) (k : A -> result B) : result B :=
  match r with
  | Ok a => k a
  | Raise e => Raise e
  end.

End Py.
Import Py.

Declare Scope py_scope.
Notation "x <- r ;; k" := (Py.bind r (fun x => k))
  (at level 100, r at next level, right associativity) : py_scope.
Open Scope py_scope.

(* ================================================================== *)
(** * The consumed part of kconfiglib's data model *)

Module kconfiglib.

(** An object as it occurs as an operand of an expression, as a member of a
    choice or as the item of a menu node.  Of a symbol in operand position the
    module reads [name] and whether [nodes] is empty; symbols are unique per
    name and constness, so equality of these values is object identity. *)
Inductive item : Type :=
| Symbol (name : string) (is_constant : bool) (has_nodes : bool)
| Choice (name : option string)
| Other (tag : Z).

Inductive relation : Type :=
| EQUAL | UNEQUAL | LESS | LESS_EQUAL | GREATER | GREATER_EQUAL.

(** Expressions: an item, or a tuple headed by an operator. *)
Inductive expr : Type :=
| E_item (sc : item)
| E_and (e1 e2 : expr)
| E_or (e1 e2 : expr)
| E_not (e : expr)
| E_rel (r : relation) (a b : item).

Inductive connective : Type := AND | OR.

(** The constant symbols [kconfig.n] and [kconfig.y]. *)
Definition const_n : item := Symbol "n" true false.
Definition const_y : item := Symbol "y" true false.

Definition item_eqb (a b : item) : bool :=
  match a, b with
  | Symbol n1 c1 h1, Symbol n2 c2 h2 =>
      (n1 =? n2) && Bool.eqb c1 c2 && Bool.eqb h1 h2
  | Choice None, Choice None => true
  | Choice (Some n1), Choice (Some n2) => n1 =? n2
  | Other t1, Other t2 => Z.eqb t1 t2
  | _, _ => false
  end.

(** [e is c] (and [e == c]) for a constant symbol [c]: a tuple is never it. *)
Definition is_obj (e : expr) (c : item) : bool :=
  match e with
  | E_item i => item_eqb i c
  | _ => false
  end.

(** [kconfiglib.split_expr(expr, op)]: the operands of the maximal chain of
    [op] at the root of [expr], left to right; [expr] itself when its root is
    not [op]. *)
Fixpoint split_expr (e : expr) (op : connective) : list expr :=
  match e, op with
  | E_and a b, AND => split_expr a AND ++ split_expr b AND
  | E_or a b, OR => split_expr a OR ++ split_expr b OR
  | _, _ => [e]
  end.

Inductive sym_type : Type := UNKNOWN | BOOL | TRISTATE | STRING | INT | HEX.

Definition TYPE_TO_STR (t : sym_type) : string :=
  match t with
  | UNKNOWN => "unknown"
  | BOOL => "bool"
  | TRISTATE => "tristate"
  | STRING => "string"
  | INT => "int"
  | HEX => "hex"
  end.

(** A declaration site.  [ancestors] is the chain reached by following
    [parent] from the node up to, and without, [kconfig.top_node]: nearest
    ancestor first, each with its prompt and its item. *)
Record MenuNode : Type := {
  filename : string;
  linenr : Z;
  prompt : option (string * expr);
  help : option string;
  dep : expr;
  orig_defaults : list (expr * expr);
  orig_selects : list (expr * expr);
  orig_implies : list (expr * expr);
  orig_ranges : list (expr * expr * expr);
  ancestors : list (option (string * expr) * item)
}.

Record SymbolObj : Type := {
  sym_name : string;
  sym_type_of : sym_type;
  sym_nodes : list MenuNode;
  rev_dep : expr;
  weak_rev_dep : expr
}.

Record ChoiceObj : Type := {
  choice_name : option string;
  choice_type_of : sym_type;
  choice_nodes : list MenuNode;
  syms : list item
}.

(** What the builder iterates over: a [Symbol] or a [Choice]. *)
Inductive sc : Type :=
| Sym (s : SymbolObj)
| Cho (c : ChoiceObj).

Definition name (x : sc) : option string :=
  match x with
  | Sym s => Some (sym_name s)
  | Cho c => choice_name c
  end.

Definition nodes (x : sc) : list MenuNode :=
  match x with
  | Sym s => sym_nodes s
  | Cho c => choice_nodes c
  end.

Definition type (x : sc) : sym_type :=
  match x with
  | Sym s => sym_type_of s
  | Cho c => choice_type_of c
  end.

Record Kconfig : Type := {
  unique_defined_syms : list SymbolObj;
  unique_choices : list ChoiceObj
}.

(** The two renderers of the library.  The builder only calls them; nothing
    proved below depends on what they print. *)
Class Renderer : Type := {
  expr_str : expr -> (item -> string) -> string;
  standard_sc_expr_str : item -> string
}.

End kconfiglib.
Import kconfiglib.

(* ================================================================== *)
(** * The database builder *)

(** One element of the JSON array. *)
Record db_record : Type := {
  db_name : string;
  db_prompt : option string;
  db_type : string;
  db_help : option string;
  db_dependencies : option string;
  db_defaults : list string;
  db_alt_defaults : list (string * string);
  db_selects : list string;
  db_selected_by : list string;
  db_implies : list string;
  db_implied_by : list string;
  db_ranges : list string;
  db_choices : list string;
  db_filename : string;
  db_linenr : Z;
  db_menupath : string
}.

Section Builder.
Context {R : Renderer}.

(** [<a href="#CONFIG_name">CONFIG_name</a>] *)
Definition anchor (n : string) : string :=
  "<a href=" ++ dq ++ "#CONFIG_" ++ n ++ dq ++ ">CONFIG_" ++ n ++ "</a>".

Definition sc_fmt (x : item) : string :=
  match x with
  | Symbol n _ has_nodes =>
      if has_nodes then anchor n else standard_sc_expr_str x
  | Choice n =>
      if negb (truthy n) then "&ltchoice&gt"
      else "&ltchoice " ++ anchor (fmt n) ++ "&gt"
  | Other _ => standard_sc_expr_str x
  end.

(** The value of an entry, followed by [ if <cond>] unless the condition is
    [kconfig.y] (the four loops over [orig_*] share this body). *)
Definition fmt_if (value cond : expr) : string :=
  let s := expr_str value sc_fmt in
  if is_obj cond const_y then s else s ++ " if " ++ expr_str cond sc_fmt.

Definition fmt_range (r : expr * expr * expr) : string :=
  let '(lo, hi, cond) := r in
  let s := "[" ++ expr_str lo sc_fmt ++ ", " ++ expr_str hi sc_fmt ++ "]" in
  if is_obj cond const_y then s else s ++ " if " ++ expr_str cond sc_fmt.

(** Lines 209-218: the defaults of the defconfig nodes. *)
Definition alt_defaults_of (ns : list MenuNode) : list (string * string) :=
  flat_map
    (fun node =>
       if negb (contains "defconfig" (filename node)) then []
       else map (fun vc => (fmt_if (fst vc) (snd vc), filename node))
                (orig_defaults node))
    ns.

(** [sym.name] for the first AND-term: only symbols and choices have it. *)
Definition name_attr (e : expr) : result (option string) :=
  match e with
  | E_item (Symbol n _ _) => Ok (Some n)
  | E_item (Choice n) => Ok n
  | _ => Raise AttributeError
  end.

(** The body of the loops of lines 227-229 and 233-235 over the OR-terms. *)
Fixpoint first_names (terms : list expr) : result (list string) :=
  match terms with
  | [] => Ok []
  | select :: rest =>
      match split_expr select AND with
      | [] => Raise IndexError
      | sym :: _ =>
          n <- name_attr sym ;;
          ns <- first_names rest ;;
          Ok (("CONFIG_" ++ fmt n) :: ns)
      end
  end.

(** Lines 225-229 with [get := rev_dep], lines 231-235 with
    [get := weak_rev_dep]. *)
Definition reverse_names (get : SymbolObj -> expr) (x : sc)
  : result (list string) :=
  match x with
  | Sym s =>
      if negb (is_obj (get s) const_n)
      then first_names (split_expr (get s) OR)
      else Ok []
  | Cho _ => Ok []
  end.

(** Lines 289-299. *)
Fixpoint menupath_walk (up : list (option (string * expr) * item))
  (menupath : string) : string :=
  match up with
  | [] => menupath
  | (p, it) :: up' =>
      let title :=
        match p with
        | Some (text, _) => text
        | None => standard_sc_expr_str it
        end in
      menupath_walk up' (" > " ++ title ++ menupath)
  end.

Definition menupath_of (node : MenuNode) : string :=
  "(Top)" ++ menupath_walk (ancestors node) EmptyString.

Definition path_of (node : MenuNode) : string :=
  filename node ++ ":" ++ str_of_int (linenr node).

(** Lines 249-322: the record appended for one declaration site. *)
Definition record_of (x : sc) (alt : list (string * string))
  (selected_by implied_by : list string) (node : MenuNode) : db_record :=
  {| db_name := "CONFIG_" ++ fmt (name x);
     db_prompt := match prompt node with
                  | Some (text, _) => Some text
                  | None => None
                  end;
     db_type := TYPE_TO_STR (type x);
     db_help := help node;
     db_dependencies :=
       if is_obj (dep node) const_y then None
       else Some (expr_str (dep node) sc_fmt);
     db_defaults := map (fun vc => fmt_if (fst vc) (snd vc)) (orig_defaults node);
     db_alt_defaults := alt;
     db_selects := map (fun vc => fmt_if (fst vc) (snd vc)) (orig_selects node);
     db_selected_by := selected_by;
     db_implies := map (fun vc => fmt_if (fst vc) (snd vc)) (orig_implies node);
     db_implied_by := implied_by;
     db_ranges := map fmt_range (orig_ranges node);
     db_choices := match x with
                   | Cho c => map (fun s => expr_str (E_item s) sc_fmt) (syms c)
                   | Sym _ => []
                   end;
     db_filename := filename node;
     db_linenr := linenr node;
     db_menupath := menupath_of node |}.

(** Lines 241-322: the loop over the nodes kept, threading [inserted_paths]
    and the database. *)
Fixpoint for_nodes (x : sc) (alt : list (string * string))
  (selected_by implied_by : list string) (ns : list MenuNode)
  (inserted_paths : list string) (db : list db_record) : list db_record :=
  match ns with
  | [] => db
  | node :: rest =>
      let path := path_of node in
      if mem path inserted_paths
      then for_nodes x alt selected_by implied_by rest inserted_paths db
      else for_nodes x alt selected_by implied_by rest
             (inserted_paths ++ [path])
             (db ++ [record_of x alt selected_by implied_by node])
  end.

(** Line 238. *)
Definition with_prompt_or_help (node : MenuNode) : bool :=
  is_some (prompt node) || truthy (help node).

(** Lines 204-322: the body of the loop over the symbols and choices. *)
Definition for_sc (x : sc) (db : list db_record) : result (list db_record) :=
  if negb (truthy (name x)) then Ok db
  else
    let alt_defaults := alt_defaults_of (nodes x) in
    selected_by <- reverse_names rev_dep x ;;
    implied_by <- reverse_names weak_rev_dep x ;;
    let ns := filter with_prompt_or_help (nodes x) in
    Ok (for_nodes x alt_defaults selected_by implied_by ns [] db).

Fixpoint for_scs (xs : list sc) (db : list db_record)
  : result (list db_record) :=
  match xs with
  | [] => Ok db
  | x :: rest => db' <- for_sc x db ;; for_scs rest db'
  end.

(** [chain(kconfig.unique_defined_syms, kconfig.unique_choices)] *)
Definition chain (k : Kconfig) : list sc :=
  map Sym (unique_defined_syms k) ++ map Cho (unique_choices k).

Definition sort_key (x : sc) : string :=
  if truthy (name x) then fmt (name x) else EmptyString.

(** Lines 198-322: the database of a loaded configuration. *)
Definition build_db (k : Kconfig) : result (list db_record) :=
  for_scs (sorted sort_key (chain k)) [].

End Builder.

(* ================================================================== *)
(** * The state the extension reads and writes *)

(** An entry of the domain's [data["options"]]:
    (name, dispname, type, docname, anchor, priority). *)
Definition object : Type := (string * string * string * string * string * Z)%type.

Definition obj_name (o : object) : string :=
  let '(n, _, _, _, _, _) := o in n.
Definition obj_docname (o : object) : string :=
  let '(_, _, _, d, _, _) := o in d.
Definition obj_anchor (o : object) : string :=
  let '(_, _, _, _, a, _) := o in a.

(** The reference node [make_refnode(builder, fromdocname, todocname,
    targetid, child, title)] builds, as the arguments it is built from. *)
Record refnode : Type := make_refnode {
  ref_fromdocname : string;
  ref_todocname : string;
  ref_targetid : string;
  ref_child : string;
  ref_title : string
}.

Inductive docnode : Type := KconfigSearchNode.

(** The application: its configuration, the working directory of the process,
    the build environment, and what the builder leaves in the output tree. *)
Record Sphinx : Type := {
  kconfig_generate_db : bool;
  kconfig_root_path : string;
  outdir : string;
  cwd : string;
  temp_data : list (string * bool);
  docname : string;
  kconfig_db : option (list db_record);
  options : list object;
  kconfig_json : option (list db_record);
  html_extra_path : list string;
  html_static_path : list string
}.

Definition set_cwd (d : string) (a : Sphinx) : Sphinx :=
  {| kconfig_generate_db := kconfig_generate_db a;
     kconfig_root_path := kconfig_root_path a;
     outdir := outdir a;
     cwd := d;
     temp_data := temp_data a;
     docname := docname a;
     kconfig_db := kconfig_db a;
     options := options a;
     kconfig_json := kconfig_json a;
     html_extra_path := html_extra_path a;
     html_static_path := html_static_path a |}.

Definition set_temp_data (t : list (string * bool)) (a : Sphinx) : Sphinx :=
  {| kconfig_generate_db := kconfig_generate_db a;
     kconfig_root_path := kconfig_root_path a;
     outdir := outdir a;
     cwd := cwd a;
     temp_data := t;
     docname := docname a;
     kconfig_db := kconfig_db a;
     options := options a;
     kconfig_json := kconfig_json a;
     html_extra_path := html_extra_path a;
     html_static_path := html_static_path a |}.


Definition set_options (o : list object) (a : Sphinx) : Sphinx :=
  {| kconfig_generate_db := kconfig_generate_db a;
     kconfig_root_path := kconfig_root_path a;
     outdir := outdir a;
     cwd := cwd a;
     temp_data := temp_data a;
     docname := docname a;
     kconfig_db := kconfig_db a;
     options := o;
     kconfig_json := kconfig_json a;
     html_extra_path := html_extra_path a;
     html_static_path := html_static_path a |}.


(** Line 324: [app.env.kconfig_db = db]. *)
Definition set_kconfig_db (db : list db_record) (a : Sphinx) : Sphinx :=
  {| kconfig_generate_db := kconfig_generate_db a;
     kconfig_root_path := kconfig_root_path a;
     outdir := outdir a;
     cwd := cwd a;
     temp_data := temp_data a;
     docname := docname a;
     kconfig_db := Some db;
     options := options a;
     kconfig_json := kconfig_json a;
     html_extra_path := html_extra_path a;
     html_static_path := html_static_path a |}.

(** The content of [kconfig.json]: the records it holds, or [None] when the
    file is absent or does not hold a complete array. *)
Definition set_kconfig_json (j : option (list db_record)) (a : Sphinx) : Sphinx :=
  {| kconfig_generate_db := kconfig_generate_db a;
     kconfig_root_path := kconfig_root_path a;
     outdir := outdir a;
     cwd := cwd a;
     temp_data := temp_data a;
     docname := docname a;
     kconfig_db := kconfig_db a;
     options := options a;
     kconfig_json := j;
     html_extra_path := html_extra_path a;
     html_static_path := html_static_path a |}.

(** Lines 334-335: the two appends to the path lists of the configuration. *)
Definition register_paths (json_path resources_dir : string) (a : Sphinx)
  : Sphinx :=
  {| kconfig_generate_db := kconfig_generate_db a;
     kconfig_root_path := kconfig_root_path a;
     outdir := outdir a;
     cwd := cwd a;
     temp_data := temp_data a;
     docname := docname a;
     kconfig_db := kconfig_db a;
     options := options a;
     kconfig_json := kconfig_json a;
     html_extra_path := html_extra_path a ++ [json_path];
     html_static_path := html_static_path a ++ [resources_dir] |}.

(** The state once lines 324-335 have all run, the file being [json_path]. *)
Definition install_db (db : list db_record) (json_path resources_dir : string)
  (a : Sphinx) : Sphinx :=
  register_paths json_path resources_dir
    (set_kconfig_json (Some db) (set_kconfig_db db a)).

(** Computations over the application that may raise. *)
Definition Proc (A : Type) : Type := Sphinx -> result A * Sphinx.

Definition ret {A : Type} (a : A) : Proc A := fun s => (Ok a, s).
Definition raise {A : Type} (e : exn) : Proc A := fun s => (Raise e, s).
Definition get : Proc Sphinx := fun s => (Ok s, s).
Definition modify (f : Sphinx -> Sphinx) : Proc unit := fun s => (Ok tt, f s).
Definition lift {A : Type} (r : result A) : Proc A := fun s => (r, s).

Definition bindP {A B : Type} (c : Proc A) (k : A -> Proc B) : Proc B :=
  fun s =>
    match c s with
    | (Ok a, s') => k a s'
    | (Raise e, s') => (Raise e, s')
    end.

Notation "x <~ c ;; k" := (bindP c (fun x => k))
  (at level 100, c at next level, right associativity) : py_scope.
Notation "c ;;; k" := (bindP c (fun _ => k))
  (at level 100, right associativity) : py_scope.

(** [for x in l: body(x)] *)
Fixpoint for_each {A : Type} (l : list A) (body : A -> Proc unit) : Proc unit :=
  match l with
  | [] => ret tt
  | x :: l' => body x ;;; for_each l' body
  end.

(* ================================================================== *)
(** * The loader *)

(** The operating system and the parser, as the loader calls them:
    [split_head p] is [os.path.split(p)[0]]; [chdir cwd d] is the working
    directory after [os.chdir(d)] from [cwd], when the call succeeds;
    [Kconfig_init cwd p] is [kconfiglib.Kconfig(p)] run from [cwd], when the
    files parse. *)
Class OS : Type := {
  split_head : string -> string;
  chdir : string -> string -> option string;
  Kconfig_init : string -> string -> option Kconfig
}.

(** What [open(file, "w")] followed by [json.dump(db, file)] comes to: the
    file written, the file not opened, or the file opened (and so emptied)
    and the dump broken off. *)
Inductive write_outcome : Type := Written | OpenFailed | DumpFailed.

(** The output tree, as the builder's last steps call it: [path_join a b] is
    [(Path(a) / b).as_posix()]; [mkdir d] tells whether
    [Path(d).mkdir(exist_ok=True)] succeeds; [write_json f db] is the outcome
    of writing [db] to [f]. *)
Class OutputTree : Type := {
  path_join : string -> string -> string;
  mkdir : string -> bool;
  write_json : string -> list db_record -> write_outcome
}.

Section Loader.
Context {os : OS} {out : OutputTree}.

Definition os_getcwd : Proc string := fun s => (Ok (cwd s), s).

Definition os_chdir (d : string) : Proc unit :=
  fun s =>
    match chdir (cwd s) d with
    | Some d' => (Ok tt, set_cwd d' s)
    | None => (Raise OSError, s)
    end.

Definition Kconfig_new (p : string) : Proc Kconfig :=
  fun s =>
    match Kconfig_init (cwd s) p with
    | Some kc => (Ok kc, s)
    | None => (Raise KconfigError, s)
    end.

(** Lines 61-68. *)
Definition kconfig_load : Proc Kconfig :=
  app <~ get ;;
  let wd := split_head (kconfig_root_path app) in
  prev <~ os_getcwd ;;
  os_chdir wd ;;;
  kc <~ Kconfig_new (kconfig_root_path app) ;;
  os_chdir prev ;;;
  ret kc.

(** Line 327: [outdir.mkdir(exist_ok=True)]. *)
Definition path_mkdir (d : string) : Proc unit :=
  fun s => if mkdir d then (Ok tt, s) else (Raise OSError, s).

(** Lines 331-332: [with open(kconfig_db_file, "w") as f: json.dump(db, f)]. *)
Definition dump_json (f : string) (db : list db_record) : Proc unit :=
  fun s =>
    match write_json f db with
    | Written => (Ok tt, set_kconfig_json (Some db) s)
    | OpenFailed => (Raise OSError, s)
    | DumpFailed => (Raise OSError, set_kconfig_json None s)
    end.

(** Lines 190-335; [resources_dir] is the module constant [RESOURCES_DIR]. *)
Definition kconfig_build_resources {R : Renderer} (resources_dir : string)
  : Proc unit :=
  app <~ get ;;
  if negb (kconfig_generate_db app) then ret tt
  else
    kconfig <~ kconfig_load ;;
    db <~ lift (build_db kconfig) ;;
    modify (set_kconfig_db db) ;;;
    let dir := path_join (outdir app) "kconfig" in
    path_mkdir dir ;;;
    let kconfig_db_file := path_join dir "kconfig.json" in
    dump_json kconfig_db_file db ;;;
    modify (register_paths kconfig_db_file resources_dir).

End Loader.

(* ================================================================== *)
(** * The cross-reference domain *)

Module KconfigDomain.

(** Lines 138-140: the generator yields the entries in list order. *)
Definition get_objects (data : list object) : list object := data.

(** Lines 142-143. *)
Definition merge_domaindata (otherdata : list object) : Proc unit :=
  modify (fun a => set_options (options a ++ otherdata) a).

(** Lines 145-168. *)
Definition resolve_xref (data : list object) (fromdocname target contnode : string)
  : option refnode :=
  let matches :=
    flat_map
      (fun o => if obj_name o =? target then [(obj_docname o, obj_anchor o)]
                else [])
      (get_objects data) in
  match matches with
  | (todocname, anchor) :: _ =>
      Some (make_refnode fromdocname todocname anchor contnode anchor)
  | [] => None
  end.

(** Lines 170-175. *)
Definition add_option (option : string) : Proc unit :=
  modify (fun a =>
    set_options
      (options a ++ [(option, option, "option", docname a, option, (-1)%Z)]) a).

End KconfigDomain.

(* ================================================================== *)
(** * The search directive *)

(** Iteration over a Python [set] built from a list of strings: each distinct
    element once, in an order the language leaves open. *)
Class PySet : Type := {
  set_iter : list string -> list string;
  set_iter_perm : forall l, Permutation (set_iter l) (nodup string_dec l)
}.

Module KconfigSearch.

Definition inserted_key : string := "kconfig_search_inserted".

(** [key in d] *)
Definition has_key (k : string) (d : list (string * bool)) : bool :=
  existsb (fun kv => fst kv =? k) d.

(** [d[key] = v] *)
Fixpoint setitem (k : string) (v : bool) (d : list (string * bool))
  : list (string * bool) :=
  match d with
  | [] => [(k, v)]
  | (k', v') :: d' =>
      if k' =? k then (k, v) :: d' else (k', v') :: setitem k v d'
  end.

Definition msg_no_db : string :=
  "Kconfig search directive can not be used without database".
Definition msg_once : string :=
  "Kconfig search directive can only be used once".

(** [self.env.kconfig_db]: the attribute exists once the builder has run. *)
Definition env_kconfig_db : Proc (list db_record) :=
  fun s =>
    match kconfig_db s with
    | Some db => (Ok db, s)
    | None => (Raise AttributeError, s)
    end.

(** Lines 91-109. *)
Definition run {P : PySet} : Proc (list docnode) :=
  app <~ get ;;
  if negb (kconfig_generate_db app) then raise (ExtensionError msg_no_db)
  else
    if has_key inserted_key (temp_data app)
    then raise (ExtensionError msg_once)
    else
      modify (fun a => set_temp_data (setitem inserted_key true (temp_data a)) a) ;;;
      db <~ env_kconfig_db ;;
      let unique := set_iter (map db_name db) in
      for_each unique KconfigDomain.add_option ;;;
      ret [KconfigSearchNode].

End KconfigSearch.

(* ================================================================== *)
(** * The page-install hook *)

(** A document tree: each node is an instance of [KconfigSearchNode] or of
    some class of docutils, and has its children in document order. *)
Inductive node_class : Type :=
| SearchNode (n : docnode)
| DocutilsNode (tagname : string).

Unset Elimination Schemes.
Inductive doctree : Type :=
| Tree (cls : node_class) (children : list doctree).
Set Elimination Schemes.

Module FindKconfigSearchDirectiveVisitor.

(** [isinstance(node, KconfigSearchNode)] *)
Definition is_search (node : node_class) : bool :=
  match node with
  | SearchNode _ => true
  | DocutilsNode _ => false
  end.

(** Line 115: the visitor starts with [_found = False]. *)
Definition init : bool := false.

(** Lines 117-121, on the visitor's [_found]. *)
Definition unknown_visit (found : bool) (node : node_class) : bool :=
  if found then found else is_search node.

(** [doctree.walk(visitor)]: docutils visits a node, then walks its children
    in order.  The visitor has no visit method of its own and raises
    nothing, so every node of the tree reaches [unknown_visit]. *)
Fixpoint walk (t : doctree) (found : bool) : bool :=
  match t with
  | Tree node children =>
      (fix walk_children (l : list doctree) (f : bool) : bool :=
         match l with
         | [] => f
         | child :: l' => walk_children l' (walk child f)
         end) children (unknown_visit found node)
  end.

(** Lines 123-125. *)
Definition found_kconfig_search_directive (found : bool) : bool := found.

End FindKconfigSearchDirectiveVisitor.

(** The style sheets and scripts registered with the application:
    [add_css_file(name)] and [add_js_file(name, type=...)]. *)
Record Assets : Type := {
  css_files : list string;
  js_files : list (string * string)
}.

(** Lines 338-357; [format] is [app.builder.format], [tree] the [doctree]
    argument ([None] for a page without source).  A docutils node is always
    true, so [not doctree] holds for [None] only. *)
Definition kconfig_install (a : Sphinx) (format : string)
  (tree : option doctree) (assets : Assets) : Assets :=
  if negb (kconfig_generate_db a) || negb (format =? "html")
     || negb (is_some tree)
  then assets
  else
    match tree with
    | None => assets
    | Some t =>
        let found :=
          FindKconfigSearchDirectiveVisitor.walk t
            FindKconfigSearchDirectiveVisitor.init in
        if FindKconfigSearchDirectiveVisitor.found_kconfig_search_directive found
        then {| css_files := css_files assets ++ ["kconfig.css"];
                js_files := js_files assets ++ [("kconfig.js", "module")] |}
        else assets
    end.

(* ================================================================== *)
(** * Reference instances of the hosts

    The properties below hold for every [Renderer], [OS] and [PySet].  The
    instances of this section make the definitions run on concrete
    configurations: the renderer prints expressions the way kconfiglib
    documents its output, the operating system is a small tree of absolute
    POSIX paths, and the set iterates in the order [nodup] leaves. *)

Module Reference.

Definition REL_TO_STR (r : relation) : string :=
  match r with
  | EQUAL => "="
  | UNEQUAL => "!="
  | LESS => "<"
  | LESS_EQUAL => "<="
  | GREATER => ">"
  | GREATER_EQUAL => ">="
  end.

Definition root_is (e : expr) (op : connective) : bool :=
  match e, op with
  | E_and _ _, AND => true
  | E_or _ _, OR => true
  | _, _ => false
  end.

Definition parenthesize (e : expr) (op : connective) (s : string) : string :=
  if root_is e op then "(" ++ s ++ ")" else s.

Fixpoint expr_str (e : expr) (f : item -> string) : string :=
  match e with
  | E_item i => f i
  | E_and a b =>
      parenthesize a OR (expr_str a f) ++ " && " ++ parenthesize b OR (expr_str b f)
  | E_or a b =>
      parenthesize a AND (expr_str a f) ++ " || " ++ parenthesize b AND (expr_str b f)
  | E_not (E_item i) => "!" ++ f i
  | E_not a => "!(" ++ expr_str a f ++ ")"
  | E_rel r a b => f a ++ " " ++ REL_TO_STR r ++ " " ++ f b
  end.

Definition is_tristate_name (n : string) : bool :=
  (n =? "n") || (n =? "m") || (n =? "y").

Definition standard_sc_expr_str (x : item) : string :=
  match x with
  | Symbol n is_constant _ =>
      if is_constant && negb (is_tristate_name n) then dq ++ n ++ dq else n
  | Choice n =>
      if truthy n then "<choice " ++ fmt n ++ ">" else "<choice>"
  | Other _ => EmptyString
  end.

#[export] Instance renderer : Renderer :=
  {| kconfiglib.expr_str := expr_str;
     kconfiglib.standard_sc_expr_str := standard_sc_expr_str |}.

Definition slash : ascii := ascii_of_nat 47.

(** [s.rstrip("/")] *)
Fixpoint rstrip_slash (s : string) : string :=
  match s with
  | EmptyString => EmptyString
  | String c r =>
      match rstrip_slash r with
      | EmptyString => if Ascii.eqb c slash then EmptyString else String c EmptyString
      | r' => String c r'
      end
  end.

(** [(p[:i], p[i:])] for [i = p.rfind("/") + 1], when [p] has a slash. *)
Fixpoint rsplit_slash (p : string) : option (string * string) :=
  match p with
  | EmptyString => None
  | String c r =>
      match rsplit_slash r with
      | Some (h, t) => Some (String c h, t)
      | None =>
          if Ascii.eqb c slash then Some (String c EmptyString, r) else None
      end
  end.

(** [posixpath.split(p)[0]] *)
Definition split_head (p : string) : string :=
  match rsplit_slash p with
  | None => EmptyString
  | Some (h, _) =>
      match rstrip_slash h with
      | EmptyString => h
      | h' => h'
      end
  end.

(** A file system in which every absolute path is a directory, [..] is the
    parent, and the empty path is refused as [os.chdir] refuses it. *)
Definition chdir (cwd d : string) : option string :=
  if d =? EmptyString then None
  else if prefix "/" d then Some d
  else if d =? ".." then Some (split_head cwd)
  else Some (cwd ++ "/" ++ d).

(** An output tree in which every step succeeds; the paths joined are a
    normalised directory and a plain name. *)
#[export] Instance out : OutputTree :=
  {| path_join := fun a b => a ++ "/" ++ b;
     mkdir := fun _ => true;
     write_json := fun _ _ => Written |}.

#[export] Instance pyset : PySet :=
  {| set_iter := nodup string_dec;
     set_iter_perm := fun l => Permutation_refl (nodup string_dec l) |}.

End Reference.

(** A small configuration:
<<
    # /proj/Kconfig
    config A                     (line 2)
        bool "Enable A"
    config B                     (line 5)
        bool "Enable B"
        select A if C
    config C                     (line 9)
        bool
    config B                     (line 5 again, through a second inclusion)
        bool "Enable B"
    # /proj/boards/x_defconfig
    config A                     (line 1)
        default y
        help: "board default"
>> *)
Module Example.

Definition sA : item := Symbol "A" false true.
Definition sB : item := Symbol "B" false true.
Definition sC : item := Symbol "C" false true.
Definition y : expr := E_item const_y.
Definition n : expr := E_item const_n.

Definition node (f : string) (l : Z) (p : option string) (h : option string)
  (defaults selects : list (expr * expr)) : MenuNode :=
  {| filename := f; linenr := l;
     prompt := match p with Some t => Some (t, y) | None => None end;
     help := h; dep := y;
     orig_defaults := defaults; orig_selects := selects;
     orig_implies := []; orig_ranges := []; ancestors := [] |}.

Definition A_main : MenuNode := node "Kconfig" 2 (Some "Enable A") None [] [].
Definition A_board : MenuNode :=
  node "boards/x_defconfig" 1 None (Some "board default") [(y, y)] [].
Definition B_site : MenuNode :=
  node "Kconfig" 5 (Some "Enable B") None [] [(E_item sA, E_item sC)].
Definition C_site : MenuNode := node "Kconfig" 9 None None [] [].

Definition A : SymbolObj :=
  {| sym_name := "A"; sym_type_of := BOOL; sym_nodes := [A_main; A_board];
     rev_dep := E_and (E_item sB) (E_item sC); weak_rev_dep := n |}.
Definition B : SymbolObj :=
  {| sym_name := "B"; sym_type_of := BOOL; sym_nodes := [B_site; B_site];
     rev_dep := n; weak_rev_dep := n |}.
Definition C : SymbolObj :=
  {| sym_name := "C"; sym_type_of := BOOL; sym_nodes := [C_site];
     rev_dep := n; weak_rev_dep := n |}.
Definition unnamed : ChoiceObj :=
  {| choice_name := None; choice_type_of := BOOL;
     choice_nodes := [node "Kconfig" 12 (Some "Pick one") None [] []];
     syms := [] |}.

Definition kconfig : Kconfig :=
  {| unique_defined_syms := [C; B; A]; unique_choices := [unnamed] |}.

#[export] Instance os : OS :=
  {| split_head := Reference.split_head;
     chdir := Reference.chdir;
     Kconfig_init := fun cwd p =>
       if (cwd =? "/proj") && (p =? "/proj/Kconfig") then Some kconfig else None |}.

Definition app (root : string) : Sphinx :=
  {| kconfig_generate_db := true;
     kconfig_root_path := root;
     outdir := "/proj/doc/_build";
     cwd := "/proj/doc";
     temp_data := [];
     docname := "index";
     kconfig_db := None;
     options := [];
     kconfig_json := None;
     html_extra_path := [];
     html_static_path := [] |}.

(** The state after the builder has run on the example, and a registry. *)
Definition db : list db_record :=
  match build_db (R := Reference.renderer) kconfig with
  | Ok records => records
  | Raise _ => []
  end.

Definition built : Sphinx :=
  install_db db "/proj/doc/_build/kconfig/kconfig.json" "static"
    (app "/proj/Kconfig").

(** An output tree whose directory cannot be created. *)
Definition readonly_out : OutputTree :=
  {| path_join := fun a b => a ++ "/" ++ b;
     mkdir := fun _ => false;
     write_json := fun _ _ => Written |}.

Definition registry : list object :=
  [ ("CONFIG_A", "CONFIG_A", "option", "index", "CONFIG_A", (-1)%Z);
    ("CONFIG_B", "CONFIG_B", "option", "index", "CONFIG_B", (-1)%Z);
    ("CONFIG_A", "CONFIG_A", "option", "other", "CONFIG_A", (-1)%Z) ].

(** A page with the search directive in its first section, and one
    without. *)
Definition search_page : doctree :=
  Tree (DocutilsNode "document")
    [ Tree (DocutilsNode "section")
        [ Tree (DocutilsNode "title") [];
          Tree (SearchNode KconfigSearchNode) [] ];
      Tree (DocutilsNode "paragraph") [] ].

Definition plain_page : doctree :=
  Tree (DocutilsNode "document") [ Tree (DocutilsNode "paragraph") [] ].

Definition no_assets : Assets := {| css_files := []; js_files := [] |}.

(** A site inside the menu [Drivers] of the menu [Main]. *)
Definition nested : MenuNode :=
  {| filename := "drivers/Kconfig"; linenr := 4;
     prompt := Some ("Enable D", y); help := None; dep := E_item sA;
     orig_defaults := []; orig_selects := []; orig_implies := [];
     orig_ranges := [];
     ancestors := [ (Some ("Drivers", y), Other 0); (Some ("Main", y), Other 0) ] |}.

Definition D : SymbolObj :=
  {| sym_name := "D"; sym_type_of := BOOL; sym_nodes := [nested];
     rev_dep := n; weak_rev_dep := n |}.

End Example.

(* ================================================================== *)
(** * Vocabulary of the properties *)

(** Whether a character occurs in a string. *)
Fixpoint occurs (c : ascii) (s : string) : bool :=
  match s with
  | EmptyString => false
  | String a s' => Ascii.eqb a c || occurs c s'
  end.

Definition colon : ascii := ascii_of_nat 58.

(** Order of two elements by their sort keys. *)
Definition key_le {A : Type} (key : A -> string) (a b : A) : Prop :=
  String.leb (key a) (key b) = true.

(** The declaration site a record describes, and the one of a node. *)
Definition site (r : db_record) : string * Z := (db_filename r, db_linenr r).
Definition site_of (node : MenuNode) : string * Z := (filename node, linenr node).

(** The fragment id of an option, and an HTML link. *)
Definition fragment_id (n : string) : string := "CONFIG_" ++ n.
Definition html_link (href text : string) : string :=
  "<a href=" ++ dq ++ href ++ dq ++ ">" ++ text ++ "</a>".

(** The text a browser shows for markup that uses the entities [&lt] and
    [&gt] (written without their semicolon, as [sc_fmt] writes them). *)
Fixpoint html_text (s : string) : string :=
  match s with
  | String "&" (String "l" (String "t" r)) => String "<" (html_text r)
  | String "&" (String "g" (String "t" r)) => String ">" (html_text r)
  | String c r => String c (html_text r)
  | EmptyString => EmptyString
  end.

(** A reverse dependency is well formed when the first AND-term of each of
    its OR-terms is a symbol or a choice, as kconfiglib builds it. *)
Definition has_name (e : expr) : bool :=
  match e with
  | E_item (Symbol _ _ _) => true
  | E_item (Choice _) => true
  | _ => false
  end.

Definition first_and_term (e : expr) : expr := hd e (split_expr e AND).

Definition rev_ok (e : expr) : bool :=
  forallb (fun t => has_name (first_and_term t)) (split_expr e OR).

Definition sc_ok (x : sc) : bool :=
  match x with
  | Sym s => rev_ok (rev_dep s) && rev_ok (weak_rev_dep s)
  | Cho _ => true
  end.

(** The name the builder lists for an OR-term. *)
Definition term_name (t : expr) : string :=
  match first_and_term t with
  | E_item (Symbol n _ _) => "CONFIG_" ++ n
  | E_item (Choice n) => "CONFIG_" ++ fmt n
  | _ => EmptyString
  end.

Definition site_eqb (a b : string * Z) : bool :=
  (fst a =? fst b) && Z.eqb (snd a) (snd b).

Definition site_mem (a : string * Z) (l : list (string * Z)) : bool :=
  existsb (site_eqb a) l.

(** The path string the builder keeps for a site. *)
Definition site_path (a : string * Z) : string :=
  fst a ++ ":" ++ str_of_int (snd a).

(** The nodes whose site is neither in [seen] nor the site of an earlier
    node of the list. *)
Fixpoint first_sites (ns : list MenuNode) (seen : list (string * Z))
  : list MenuNode :=
  match ns with
  | [] => []
  | node :: rest =>
      if site_mem (site_of node) seen then first_sites rest seen
      else node :: first_sites rest (seen ++ [site_of node])
  end.

(** The names listed for a reverse dependency: none for the constant [n],
    else the name of the first AND-term of each OR-term. *)
Definition listed_names (e : expr) : list string :=
  if is_obj e const_n then [] else map term_name (split_expr e OR).

Definition selected_by_of (x : sc) : list string :=
  match x with
  | Sym s => listed_names (rev_dep s)
  | Cho _ => []
  end.

Definition implied_by_of (x : sc) : list string :=
  match x with
  | Sym s => listed_names (weak_rev_dep s)
  | Cho _ => []
  end.

Definition named (x : sc) : bool := truthy (name x).

Section Records.
Context {R : Renderer}.

(** The record of a node of [x], with the three fields computed per symbol. *)
Definition site_record (x : sc) (node : MenuNode) : db_record :=
  record_of x (alt_defaults_of (nodes x)) (selected_by_of x) (implied_by_of x)
    node.

(** The records of one symbol or choice, as the specification describes
    them: one per node with a prompt or a help text, the first of each site. *)
Definition records_of (x : sc) : list db_record :=
  map (site_record x) (first_sites (filter with_prompt_or_help (nodes x)) []).

End Records.

(** The entry [add_option] registers for an option while [doc] is read. *)
Definition option_entry (doc opt : string) : object :=
  (opt, opt, "option", doc, opt, (-1)%Z).

(** The state a successful run of the search directive leaves. *)
Definition after_run {P : PySet} (a : Sphinx) (db : list db_record) : Sphinx :=
  set_options
    (options a ++ map (option_entry (docname a)) (set_iter (map db_name db)))
    (set_temp_data
       (KconfigSearch.setitem KconfigSearch.inserted_key true (temp_data a)) a).

Definition site_dec (a b : string * Z) : {a = b} + {a <> b}.
Proof.
  decide equality; [apply Z.eq_dec|apply string_dec].
Defined.

(** The path segment of an ancestor: its prompt text, or the library's
    rendering of its item. *)
Definition ancestor_title {R : Renderer} (up : option (string * expr) * item)
  : string :=
  match fst up with
  | Some (text, _) => text
  | None => standard_sc_expr_str (snd up)
  end.

(** Concatenation of a list of strings. *)
Definition join (l : list string) : string := fold_right append EmptyString l.

(** Whether a tree holds an instance of [KconfigSearchNode]. *)
Fixpoint has_search (t : doctree) : bool :=
  match t with
  | Tree node children =>
      FindKconfigSearchDirectiveVisitor.is_search node
      || existsb has_search children
  end.

(** The assets of a page that shows the search box. *)
Definition with_search_assets (assets : Assets) : Assets :=
  {| css_files := css_files assets ++ ["kconfig.css"];
     js_files := js_files assets ++ [("kconfig.js", "module")] |}.

(** Whether the registry holds an entry for a name. *)
Definition registered (n : string) (data : list object) : bool :=
  existsb (fun o => obj_name o =? n) data.

(** The path of the JSON file, as the builder computes it (lines 326-329). *)
Definition kconfig_db_file {out : OutputTree} (a : Sphinx) : string :=
  path_join (path_join (outdir a) "kconfig") "kconfig.json".

(* ================================================================== *)
(** * Facts about the Python builtins *)

Lemma leb_refl (a : string) : String.leb a a = true.
Proof.
  destruct (String.leb_total a a); assumption.
Qed.

Lemma leb_trans (a b c : string) :
  String.leb a b = true -> String.leb b c = true -> String.leb a c = true.
Proof.
  unfold String.leb. revert b c.
  induction a as [|x a IH]; intros [|y b] [|z c]; simpl; try congruence.
  unfold Ascii.compare.
  destruct (N.compare_spec (N_of_ascii x) (N_of_ascii y)) as [E1|L1|G1];
    destruct (N.compare_spec (N_of_ascii y) (N_of_ascii z)) as [E2|L2|G2];
    intros H1 H2; try discriminate.
  - rewrite E1, E2, N.compare_refl. now apply IH with b.
  - rewrite E1. apply N.compare_lt_iff in L2. now rewrite L2.
  - rewrite <- E2. apply N.compare_lt_iff in L1. now rewrite L1.
  - assert (L : (N_of_ascii x < N_of_ascii z)%N) by lia.
    apply N.compare_lt_iff in L. now rewrite L.
Qed.

Lemma leb_append_l (p a b : string) :
  String.leb (p ++ a) (p ++ b) = String.leb a b.
Proof.
  unfold String.leb. induction p as [|c p IH]; simpl; [reflexivity|].
  unfold Ascii.compare. now rewrite N.compare_refl.
Qed.

Section Sorting.
Context {A : Type} (key : A -> string).

Lemma insert_by_perm (x : A) (l : list A) :
  Permutation (insert_by key x l) (x :: l).
Proof.
  induction l as [|y l IH]; simpl; [reflexivity|].
  destruct (String.leb (key x) (key y)); [reflexivity|].
  rewrite IH. apply perm_swap.
Qed.

Lemma sorted_perm (l : list A) : Permutation (sorted key l) l.
Proof.
  induction l as [|x l IH]; simpl; [reflexivity|].
  rewrite insert_by_perm. now constructor.
Qed.

Lemma insert_by_sorted (x : A) (l : list A) :
  StronglySorted (key_le key) l ->
  StronglySorted (key_le key) (insert_by key x l).
Proof.
  induction 1 as [|y l Hs IH Hy]; simpl.
  - repeat constructor.
  - destruct (String.leb (key x) (key y)) eqn:E.
    + constructor; [now constructor|].
      constructor; [exact E|].
      eapply Forall_impl; [|exact Hy].
      intros z Hz. unfold key_le in *. now apply leb_trans with (key y).
    + constructor; [exact IH|].
      eapply Permutation_Forall; [symmetry; apply insert_by_perm|].
      constructor; [|exact Hy].
      unfold key_le. destruct (String.leb_total (key x) (key y)); congruence.
Qed.

Lemma sorted_sorted (l : list A) : StronglySorted (key_le key) (sorted key l).
Proof.
  induction l as [|x l IH]; simpl; [constructor|].
  now apply insert_by_sorted.
Qed.

(** Stability: elements with one key keep the order of the input. *)
Lemma insert_by_stable (k : string) (x : A) (l : list A) :
  filter (fun a => key a =? k) (insert_by key x l) =
  filter (fun a => key a =? k) (x :: l).
Proof.
  induction l as [|y l IH]; [reflexivity|].
  cbn [insert_by]. destruct (String.leb (key x) (key y)) eqn:E; [reflexivity|].
  cbn [filter] in *. rewrite IH.
  destruct (key x =? k) eqn:Ex; [|reflexivity].
  destruct (key y =? k) eqn:Ey; [|reflexivity].
  apply String.eqb_eq in Ex, Ey. rewrite Ex, Ey, leb_refl in E. discriminate.
Qed.

Lemma sorted_stable (k : string) (l : list A) :
  filter (fun a => key a =? k) (sorted key l) = filter (fun a => key a =? k) l.
Proof.
  induction l as [|x l IH]; [reflexivity|].
  cbn [sorted]. rewrite insert_by_stable. cbn [filter]. now rewrite IH.
Qed.

End Sorting.

Lemma mem_true_iff (x : string) (l : list string) : mem x l = true <-> In x l.
Proof.
  unfold mem. rewrite existsb_exists. split.
  - intros (y & Hy & E). apply String.eqb_eq in E. now subst.
  - intros H. exists x. split; [exact H|apply String.eqb_refl].
Qed.

Lemma mem_false_iff (x : string) (l : list string) : mem x l = false <-> ~ In x l.
Proof.
  rewrite <- mem_true_iff. destruct (mem x l); split; congruence.
Qed.

(** ** [str(int)] is injective and never prints a colon *)

Lemma occurs_append (c : ascii) (a b : string) :
  occurs c (a ++ b) = occurs c a || occurs c b.
Proof.
  induction a as [|x a IH]; simpl; [reflexivity|].
  now rewrite IH, orb_assoc.
Qed.

Lemma uint_no_colon (d : Decimal.uint) :
  occurs colon (NilEmpty.string_of_uint d) = false.
Proof.
  induction d; simpl; try assumption; reflexivity.
Qed.

Lemma str_of_int_no_colon (i : Z) : occurs colon (str_of_int i) = false.
Proof.
  unfold str_of_int, NilZero.string_of_int, NilZero.string_of_uint.
  destruct (Z.to_int i) as [d|d]; destruct d; simpl;
    try reflexivity; apply uint_no_colon.
Qed.

Lemma str_of_int_inj (i j : Z) : str_of_int i = str_of_int j -> i = j.
Proof.
  unfold str_of_int. intros E.
  assert (N : forall z, Z.to_int z <> Decimal.Pos Decimal.Nil /\
                        Z.to_int z <> Decimal.Neg Decimal.Nil).
  { intros [|p|p]; simpl; split; try discriminate;
      intros [= H]; now apply (DecimalPos.Unsigned.to_uint_nonnil p). }
  apply (f_equal NilZero.int_of_string) in E.
  rewrite !NilZero.isi in E by apply N.
  injection E as E. now apply DecimalZ.to_int_inj.
Qed.

Lemma sep_inj (a b d1 d2 : string) :
  occurs colon d1 = false -> occurs colon d2 = false ->
  a ++ String colon d1 = b ++ String colon d2 -> a = b /\ d1 = d2.
Proof.
  intros H1 H2. revert b.
  induction a as [|x a IH]; intros [|y b]; simpl; intros E.
  - injection E as E. now split.
  - injection E as Ey E. subst d1.
    rewrite occurs_append in H1. cbn [occurs] in H1.
    rewrite Ascii.eqb_refl, orb_true_r in H1. discriminate.
  - injection E as Ex E. subst d2.
    rewrite occurs_append in H2. cbn [occurs] in H2.
    rewrite Ascii.eqb_refl, orb_true_r in H2. discriminate.
  - injection E as Ex E. destruct (IH b E) as [-> ->]. now subst.
Qed.

(* ================================================================== *)
(** * The database builder: one symbol or choice *)

Lemma site_eqb_eq (a b : string * Z) : site_eqb a b = true <-> a = b.
Proof.
  destruct a as [f l], b as [g m]. unfold site_eqb. simpl.
  rewrite andb_true_iff, String.eqb_eq, Z.eqb_eq.
  split; [intros [-> ->]; reflexivity|intros [= -> ->]; now split].
Qed.

Lemma site_mem_true_iff (a : string * Z) (l : list (string * Z)) :
  site_mem a l = true <-> In a l.
Proof.
  unfold site_mem. rewrite existsb_exists. split.
  - intros (b & Hb & E). apply site_eqb_eq in E. now subst.
  - intros H. exists a. split; [exact H|now apply site_eqb_eq].
Qed.

Lemma site_mem_false_iff (a : string * Z) (l : list (string * Z)) :
  site_mem a l = false <-> ~ In a l.
Proof.
  rewrite <- site_mem_true_iff. destruct (site_mem a l); split; congruence.
Qed.

(** The path string determines the site. *)
Lemma site_path_inj (a b : string * Z) : site_path a = site_path b -> a = b.
Proof.
  destruct a as [f l], b as [g m]. unfold site_path. simpl. intros E.
  destruct (sep_inj f g (str_of_int l) (str_of_int m)) as [-> E'];
    try apply str_of_int_no_colon.
  - exact E.
  - now rewrite (str_of_int_inj _ _ E').
Qed.

Lemma path_of_site (node : MenuNode) : path_of node = site_path (site_of node).
Proof. reflexivity. Qed.

Lemma mem_site_paths (a : string * Z) (seen : list (string * Z)) :
  mem (site_path a) (map site_path seen) = site_mem a seen.
Proof.
  destruct (site_mem a seen) eqn:E.
  - apply site_mem_true_iff in E. apply mem_true_iff. now apply in_map.
  - apply site_mem_false_iff in E. apply mem_false_iff.
    intros H. apply in_map_iff in H. destruct H as (b & Hb & Hin).
    apply site_path_inj in Hb. now subst.
Qed.

Section ForNodes.
Context {R : Renderer}.
Variables (x : sc) (alt : list (string * string)) (sb ib : list string).

(** The loop appends to the database the records of the first node of each
    site not seen before. *)
Lemma for_nodes_first_sites (ns : list MenuNode) :
  forall (seen : list (string * Z)) (db : list db_record),
    for_nodes x alt sb ib ns (map site_path seen) db =
    (db ++ map (record_of x alt sb ib) (first_sites ns seen))%list.
Proof.
  induction ns as [|node rest IH]; intros seen db; cbn [for_nodes first_sites].
  - now rewrite app_nil_r.
  - rewrite path_of_site, mem_site_paths.
    destruct (site_mem (site_of node) seen).
    + apply IH.
    + replace (map site_path seen ++ [site_path (site_of node)])%list
        with (map site_path (seen ++ [site_of node])%list)
        by (now rewrite map_app).
      rewrite IH. cbn [map]. now rewrite <- app_assoc.
Qed.

End ForNodes.

Lemma first_sites_incl (ns : list MenuNode) :
  forall seen node, In node (first_sites ns seen) -> In node ns.
Proof.
  induction ns as [|m rest IH]; intros seen node; cbn [first_sites];
    [easy|].
  destruct (site_mem (site_of m) seen).
  - intros H. right. now apply IH with seen.
  - intros [->|H]; [now left|right; now apply IH with (seen ++ [site_of m])%list].
Qed.

Lemma first_sites_fresh (ns : list MenuNode) :
  forall seen node,
    In node (first_sites ns seen) -> ~ In (site_of node) seen.
Proof.
  induction ns as [|m rest IH]; intros seen node; cbn [first_sites];
    [easy|].
  destruct (site_mem (site_of m) seen) eqn:E.
  - apply IH.
  - apply site_mem_false_iff in E. intros [->|H]; [exact E|].
    apply IH in H. intros Hin. apply H. apply in_or_app. now left.
Qed.

Lemma first_sites_nodup (ns : list MenuNode) :
  forall seen, NoDup (map site_of (first_sites ns seen)).
Proof.
  induction ns as [|m rest IH]; intros seen; cbn [first_sites];
    [constructor|].
  destruct (site_mem (site_of m) seen); [apply IH|].
  cbn [map]. constructor; [|apply IH].
  intros H. apply in_map_iff in H. destruct H as (k & Ek & Hk).
  apply first_sites_fresh in Hk. apply Hk. rewrite Ek.
  apply in_or_app. right. now left.
Qed.

(** Every node's site is seen before or kept. *)
Lemma first_sites_cover (ns : list MenuNode) :
  forall seen node,
    In node ns ->
    In (site_of node) seen \/
    In (site_of node) (map site_of (first_sites ns seen)).
Proof.
  induction ns as [|m rest IH]; intros seen node; cbn [first_sites];
    [easy|].
  destruct (site_mem (site_of m) seen) eqn:E.
  - apply site_mem_true_iff in E. intros [->|H]; [now left|now apply IH].
  - intros [->|H]; [right; now left|].
    destruct (IH (seen ++ [site_of m])%list node H) as [Hs|Hk].
    + apply in_app_or in Hs. destruct Hs as [Hs|[Hs|[]]];
        [now left|right; left; exact Hs].
    + right. now right.
Qed.

(** A kept node is the first node of its site. *)
Lemma first_sites_first (ns : list MenuNode) :
  forall seen node,
    In node (first_sites ns seen) ->
    exists l1 l2,
      ns = (l1 ++ node :: l2)%list /\ ~ In (site_of node) (map site_of l1).
Proof.
  induction ns as [|m rest IH]; intros seen node; cbn [first_sites];
    [easy|].
  destruct (site_mem (site_of m) seen) eqn:E.
  - intros H. pose proof (first_sites_fresh _ _ _ H) as Hf.
    destruct (IH _ _ H) as (l1 & l2 & -> & Hl).
    exists (m :: l1), l2. split; [reflexivity|].
    cbn [map]. intros [Em|Hin]; [|now apply Hl].
    apply site_mem_true_iff in E. apply Hf. now rewrite <- Em.
  - intros [->|H].
    + exists [], rest. split; [reflexivity|easy].
    + pose proof (first_sites_fresh _ _ _ H) as Hf.
      destruct (IH _ _ H) as (l1 & l2 & -> & Hl).
      exists (m :: l1), l2. split; [reflexivity|].
      cbn [map]. intros [Em|Hin]; [|now apply Hl].
      apply Hf. apply in_or_app. right. left. exact Em.
Qed.

Lemma split_expr_nonempty (e : expr) (op : connective) : split_expr e op <> [].
Proof.
  induction e; destruct op; simpl; try discriminate;
    intros H; apply app_eq_nil in H; destruct H; contradiction.
Qed.



Section ForSc.
Context {R : Renderer}.

Lemma first_names_ok (terms : list expr) :
  forallb (fun t => has_name (first_and_term t)) terms = true ->
  first_names terms = Ok (map term_name terms).
Proof.
  induction terms as [|t rest IH]; [reflexivity|].
  cbn [forallb first_names map]. intros H.
  apply andb_true_iff in H. destruct H as [Ht Hrest].
  rewrite (IH Hrest). unfold term_name, first_and_term in *.
  pose proof (split_expr_nonempty t AND) as Hne.
  destruct (split_expr t AND) as [|e es]; [contradiction|].
  cbn [hd] in *.
  destruct e as [[n c h|n|tag]| | | |]; try discriminate; reflexivity.
Qed.

Lemma reverse_names_rev_dep (x : sc) :
  sc_ok x = true -> reverse_names rev_dep x = Ok (selected_by_of x).
Proof.
  destruct x as [s|c]; [|reflexivity]. cbn [sc_ok]. intros H.
  apply andb_true_iff in H. destruct H as [H _].
  unfold reverse_names, selected_by_of, listed_names.
  destruct (is_obj (rev_dep s) const_n); [reflexivity|].
  now apply first_names_ok.
Qed.

Lemma reverse_names_weak_rev_dep (x : sc) :
  sc_ok x = true -> reverse_names weak_rev_dep x = Ok (implied_by_of x).
Proof.
  destruct x as [s|c]; [|reflexivity]. cbn [sc_ok]. intros H.
  apply andb_true_iff in H. destruct H as [_ H].
  unfold reverse_names, implied_by_of, listed_names.
  destruct (is_obj (weak_rev_dep s) const_n); [reflexivity|].
  now apply first_names_ok.
Qed.

(** What one turn of the outer loop adds to the database. *)
Lemma for_sc_named (x : sc) (db : list db_record) :
  named x = true -> sc_ok x = true ->
  for_sc x db = Ok (db ++ records_of x)%list.
Proof.
  intros Hn Hok. unfold for_sc. unfold named in Hn. rewrite Hn. cbn [negb].
  rewrite (reverse_names_rev_dep x Hok), (reverse_names_weak_rev_dep x Hok).
  cbn [bind]. f_equal.
  exact (for_nodes_first_sites x _ _ _ _ [] db).
Qed.

Lemma for_sc_nameless (x : sc) (db : list db_record) :
  named x = false -> for_sc x db = Ok db.
Proof.
  intros Hn. unfold for_sc. unfold named in Hn. now rewrite Hn.
Qed.

Lemma for_sc_total (x : sc) (db : list db_record) :
  sc_ok x = true ->
  for_sc x db = Ok (db ++ if named x then records_of x else [])%list.
Proof.
  intros Hok. destruct (named x) eqn:Hn.
  - now apply for_sc_named.
  - rewrite app_nil_r. now apply for_sc_nameless.
Qed.

Lemma for_scs_total (xs : list sc) :
  forall db,
    forallb sc_ok xs = true ->
    for_scs xs db = Ok (db ++ flat_map records_of (filter named xs))%list.
Proof.
  induction xs as [|x rest IH]; intros db H; cbn [for_scs filter flat_map].
  - now rewrite app_nil_r.
  - cbn [forallb] in H. apply andb_true_iff in H. destruct H as [Hx Hrest].
    rewrite (for_sc_total x db Hx). cbn [bind]. rewrite (IH _ Hrest).
    destruct (named x); cbn [flat_map]; now rewrite ?app_nil_r, <- ?app_assoc.
Qed.

Lemma records_of_site (x : sc) (node : MenuNode) :
  site (site_record x node) = site_of node.
Proof. reflexivity. Qed.

Lemma records_of_sites (x : sc) :
  map site (records_of x) =
  map site_of (first_sites (filter with_prompt_or_help (nodes x)) []).
Proof.
  unfold records_of. rewrite map_map. apply map_ext. intros; reflexivity.
Qed.

End ForSc.

Section RecordClaims.
Context {R : Renderer}.


(** C2.  The records of one symbol or choice have pairwise distinct
    (filename, line number) pairs, and each of them describes the first of
    the processed declaration sites that has its pair: later sites with the
    same pair add nothing. *)
Theorem one_record_per_site (x : sc) :
  sc_ok x = true ->
  exists rs,
    for_sc x [] = Ok rs /\
    NoDup (map site rs) /\
    forall r, In r rs ->
      exists l1 node l2,
        filter with_prompt_or_help (nodes x) = (l1 ++ node :: l2)%list /\
        ~ In (site_of node) (map site_of l1) /\
        r = site_record x node.
Proof.
  intros Hok. rewrite (for_sc_total x [] Hok). cbn [app].
  eexists. split; [reflexivity|].
  destruct (named x); [|split; [constructor|easy]].
  split.
  - rewrite records_of_sites. apply first_sites_nodup.
  - intros r Hr. unfold records_of in Hr. apply in_map_iff in Hr.
    destruct Hr as (node & <- & Hnode).
    destruct (first_sites_first _ _ _ Hnode) as (l1 & l2 & E & Hl).
    now exists l1, node, l2.
Qed.

(** C7, as the code has it.  A record is emitted only for a declaration site
    that carries a prompt or a non-empty help text, and every such site has a
    record for its (filename, line number) pair, whether or not its filename
    contains the defconfig marker; a symbol none of whose sites carries a
    prompt or a help text has no record. *)
Theorem records_need_prompt_or_help (x : sc) :
  sc_ok x = true ->
  named x = true ->
  exists rs,
    for_sc x [] = Ok rs /\
    (forall r, In r rs ->
       exists node,
         In node (nodes x) /\ with_prompt_or_help node = true /\
         r = site_record x node) /\
    (forall node,
       In node (nodes x) -> with_prompt_or_help node = true ->
       exists r, In r rs /\ site r = site_of node) /\
    ((forall node, In node (nodes x) -> with_prompt_or_help node = false) ->
     rs = []).
Proof.
  intros Hok Hn. exists (records_of x).
  split; [exact (for_sc_named x [] Hn Hok)|].
  assert (Honly : forall r, In r (records_of x) ->
            exists node, In node (nodes x) /\
              with_prompt_or_help node = true /\ r = site_record x node).
  { intros r Hr. unfold records_of in Hr. apply in_map_iff in Hr.
    destruct Hr as (node & <- & Hnode).
    apply first_sites_incl in Hnode. apply filter_In in Hnode.
    destruct Hnode as [Hin Hp]. now exists node. }
  split; [exact Honly|]. split.
  - intros node Hin Hp.
    assert (Hf : In node (filter with_prompt_or_help (nodes x)))
      by (apply filter_In; now split).
    destruct (first_sites_cover _ [] _ Hf) as [[]|Hk].
    rewrite <- records_of_sites in Hk. apply in_map_iff in Hk.
    destruct Hk as (r & Er & Hr). now exists r.
  - intros Hnone. destruct (records_of x) as [|r rs] eqn:E; [reflexivity|].
    destruct (Honly r (or_introl eq_refl)) as (node & Hin & Hp & _).
    rewrite (Hnone node Hin) in Hp. discriminate.
Qed.

(** C10.  All records of one symbol or choice carry the same [alt_defaults],
    [selected_by] and [implied_by]: the values computed for the symbol,
    whichever declaration site a record describes. *)
Theorem per_symbol_fields_shared (x : sc) :
  sc_ok x = true ->
  exists rs,
    for_sc x [] = Ok rs /\
    (forall r, In r rs ->
       db_alt_defaults r = alt_defaults_of (nodes x) /\
       db_selected_by r = selected_by_of x /\
       db_implied_by r = implied_by_of x) /\
    (forall r1 r2, In r1 rs -> In r2 rs ->
       db_alt_defaults r1 = db_alt_defaults r2 /\
       db_selected_by r1 = db_selected_by r2 /\
       db_implied_by r1 = db_implied_by r2).
Proof.
  intros Hok. rewrite (for_sc_total x [] Hok). cbn [app].
  eexists. split; [reflexivity|].
  assert (H : forall r, In r (if named x then records_of x else []) ->
            db_alt_defaults r = alt_defaults_of (nodes x) /\
            db_selected_by r = selected_by_of x /\
            db_implied_by r = implied_by_of x).
  { intros r Hr. destruct (named x); [|destruct Hr].
    unfold records_of in Hr. apply in_map_iff in Hr.
    destruct Hr as (node & <- & _). repeat split. }
  split; [exact H|].
  intros r1 r2 H1 H2.
  destruct (H r1 H1) as (-> & -> & ->), (H r2 H2) as (-> & -> & ->).
  repeat split.
Qed.

End RecordClaims.

(* ================================================================== *)
(** * The database builder: the whole database *)

Lemma StronglySorted_app {A : Type} (le : A -> A -> Prop) (l1 l2 : list A) :
  StronglySorted le l1 -> StronglySorted le l2 ->
  (forall a b, In a l1 -> In b l2 -> le a b) ->
  StronglySorted le (l1 ++ l2).
Proof.
  induction 1 as [|a l1 Hs IH Ha]; intros H2 Hc; simpl; [exact H2|].
  constructor.
  - apply IH; [exact H2|]. intros x y Hx Hy. apply Hc; [now right|exact Hy].
  - apply Forall_app. split; [exact Ha|].
    apply Forall_forall. intros y Hy. apply Hc; [now left|exact Hy].
Qed.

Lemma StronglySorted_filter {A : Type} (le : A -> A -> Prop) (f : A -> bool)
  (l : list A) :
  StronglySorted le l -> StronglySorted le (filter f l).
Proof.
  induction 1 as [|a l Hs IH Ha]; simpl; [constructor|].
  destruct (f a); [|exact IH].
  constructor; [exact IH|].
  apply Forall_forall. intros y Hy. apply filter_In in Hy.
  rewrite Forall_forall in Ha. now apply Ha.
Qed.

Lemma StronglySorted_same {A : Type} (key : A -> string) (k : string)
  (l : list A) :
  (forall a, In a l -> key a = k) -> StronglySorted (key_le key) l.
Proof.
  induction l as [|a l IH]; intros H; constructor.
  - apply IH. intros b Hb. apply H. now right.
  - apply Forall_forall. intros b Hb. unfold key_le.
    rewrite (H a (or_introl eq_refl)), (H b (or_intror Hb)). apply leb_refl.
Qed.

Section Database.
Context {R : Renderer}.

Lemma records_of_name (x : sc) (r : db_record) :
  In r (records_of x) -> db_name r = "CONFIG_" ++ fmt (name x).
Proof.
  unfold records_of. intros H. apply in_map_iff in H.
  now destruct H as (node & <- & _).
Qed.

Lemma named_sort_key (x : sc) : named x = true -> fmt (name x) = sort_key x.
Proof.
  unfold named, sort_key. now intros ->.
Qed.

Lemma named_has_name (x : sc) :
  named x = true -> exists n, name x = Some n /\ n <> EmptyString.
Proof.
  unfold named, truthy. destruct (name x) as [n|]; [|discriminate].
  intros H. exists n. split; [reflexivity|].
  intros ->. discriminate.
Qed.

Lemma records_sorted (xs : list sc) :
  StronglySorted (key_le sort_key) xs ->
  (forall x, In x xs -> named x = true) ->
  StronglySorted (key_le db_name) (flat_map records_of xs).
Proof.
  induction 1 as [|x xs Hs IH Hx]; intros Hn; cbn [flat_map]; [constructor|].
  apply StronglySorted_app.
  - apply StronglySorted_same with ("CONFIG_" ++ fmt (name x)).
    intros r. apply records_of_name.
  - apply IH. intros z Hz. apply Hn. now right.
  - intros a b Ha Hb. apply in_flat_map in Hb. destruct Hb as (z & Hz & Hb).
    unfold key_le.
    rewrite (records_of_name _ _ Ha), (records_of_name _ _ Hb), leb_append_l.
    rewrite !named_sort_key by (apply Hn; first [now left|now right]).
    rewrite Forall_forall in Hx. now apply Hx.
Qed.

(** What [build_db] returns on a configuration whose reverse dependencies
    are well formed. *)
Lemma build_db_total (k : Kconfig) :
  forallb sc_ok (chain k) = true ->
  build_db k =
    Ok (flat_map records_of (filter named (sorted sort_key (chain k)))).
Proof.
  intros H. unfold build_db. rewrite for_scs_total; [reflexivity|].
  apply forallb_forall. intros x Hx.
  rewrite forallb_forall in H. apply H.
  now apply (Permutation_in _ (sorted_perm sort_key (chain k))).
Qed.

(** C6.  The records come in non-decreasing order of name: the database is
    the concatenation, over the named symbols and choices in sorted order, of
    the records of each, so the records of one symbol are contiguous and in
    the order of its declaration sites.  Every record carries the name of a
    named symbol or choice of the configuration: nameless ones have no
    record. *)
Theorem database_sorted_by_name (k : Kconfig) :
  forallb sc_ok (chain k) = true ->
  exists db,
    build_db k = Ok db /\
    StronglySorted (key_le db_name) db /\
    db = flat_map records_of (filter named (sorted sort_key (chain k))) /\
    StronglySorted (key_le sort_key) (sorted sort_key (chain k)) /\
    Permutation (sorted sort_key (chain k)) (chain k) /\
    forall r, In r db ->
      exists x n,
        In x (chain k) /\ name x = Some n /\ n <> EmptyString /\
        In r (records_of x) /\ db_name r = "CONFIG_" ++ n.
Proof.
  intros H. eexists. split; [exact (build_db_total k H)|].
  split; [|split; [reflexivity|split; [apply sorted_sorted|split;
    [apply sorted_perm|]]]].
  - apply records_sorted.
    + apply StronglySorted_filter, sorted_sorted.
    + intros x Hx. now apply filter_In in Hx.
  - intros r Hr. apply in_flat_map in Hr. destruct Hr as (x & Hx & Hr).
    apply filter_In in Hx. destruct Hx as [Hx Hn].
    destruct (named_has_name x Hn) as (n & En & Hne).
    exists x, n. repeat split; try assumption.
    + now apply (Permutation_in _ (sorted_perm sort_key (chain k))).
    + rewrite (records_of_name _ _ Hr), En. reflexivity.
Qed.

End Database.

(* ================================================================== *)
(** * The expression renderer *)

(** C9.  A symbol with a declaration site renders as a link to the fragment
    [CONFIG_<name>], which is the name of the symbol's records; an unnamed
    choice renders as the marker a browser shows as [<choice>]; a named
    choice renders as a link between [&ltchoice] and [&gt]; a symbol without
    declaration site and any other object go to the library's default
    renderer. *)
Theorem sc_fmt_cases {R : Renderer} :
  (forall n c,
     sc_fmt (Symbol n c true) =
       html_link ("#" ++ fragment_id n) (fragment_id n)) /\
  (forall s alt sb ib node,
     db_name (record_of (Sym s) alt sb ib node) = fragment_id (sym_name s)) /\
  (forall n,
     truthy n = false ->
     sc_fmt (Choice n) = "&ltchoice&gt" /\
     html_text (sc_fmt (Choice n)) = "<choice>") /\
  (forall n,
     n <> EmptyString ->
     sc_fmt (Choice (Some n)) =
       "&ltchoice " ++ html_link ("#" ++ fragment_id n) (fragment_id n) ++ "&gt") /\
  (forall n c,
     sc_fmt (Symbol n c false) = standard_sc_expr_str (Symbol n c false)) /\
  (forall tag, sc_fmt (Other tag) = standard_sc_expr_str (Other tag)).
Proof.
  split; [reflexivity|]. split; [reflexivity|].
  split; [intros n H; unfold sc_fmt; rewrite H; now split|].
  split; [|split; reflexivity].
  intros n H. unfold sc_fmt, truthy.
  apply String.eqb_neq in H. now rewrite H.
Qed.

(* ================================================================== *)
(** * The cross-reference domain *)

Section DomainFacts.
Import KconfigDomain.

Lemma resolve_xref_find (data : list object) (fromdocname target contnode : string) :
  resolve_xref data fromdocname target contnode =
  match find (fun o => obj_name o =? target) data with
  | Some o =>
      Some (make_refnode fromdocname (obj_docname o) (obj_anchor o) contnode
              (obj_anchor o))
  | None => None
  end.
Proof.
  unfold resolve_xref, get_objects.
  induction data as [|o data IH]; [reflexivity|].
  cbn [flat_map find]. destruct (obj_name o =? target); [reflexivity|].
  exact IH.
Qed.

(** C4.  Resolution scans the entries in registration order: it returns the
    reference built from the document and the anchor of the first entry whose
    name is the target, and [None] exactly when no entry has that name. *)
Theorem resolve_xref_first_match (data : list object)
  (fromdocname target contnode : string) :
  (forall l1 o l2,
     data = (l1 ++ o :: l2)%list ->
     obj_name o = target ->
     (forall o', In o' l1 -> obj_name o' <> target) ->
     resolve_xref data fromdocname target contnode =
       Some (make_refnode fromdocname (obj_docname o) (obj_anchor o) contnode
               (obj_anchor o))) /\
  (resolve_xref data fromdocname target contnode = None <->
   forall o, In o data -> obj_name o <> target).
Proof.
  rewrite resolve_xref_find. split.
  - intros l1 o l2 -> Ho Hl1.
    induction l1 as [|p l1 IH]; cbn [app find].
    + apply String.eqb_eq in Ho. now rewrite Ho.
    + assert (Hp : (obj_name p =? target) = false)
        by (apply String.eqb_neq, Hl1; now left).
      rewrite Hp. apply IH. intros o' Ho'. apply Hl1. now right.
  - destruct (find _ data) as [o|] eqn:E; split.
    + discriminate.
    + intros H. apply find_some in E. destruct E as [Hin Ho].
      apply String.eqb_eq in Ho. now destruct (H o Hin).
    + intros _ o Hin Ho. apply String.eqb_eq in Ho.
      now rewrite (find_none _ _ E o Hin) in Ho.
    + reflexivity.
Qed.

(** C5.  Merging appends the other entry list to the current one and touches
    nothing else: the entries of both sides are kept, in their order, and
    an entry present on both sides is present twice. *)
Theorem merge_domaindata_appends (otherdata : list object) (a : Sphinx) :
  fst (merge_domaindata otherdata a) = Ok tt /\
  options (snd (merge_domaindata otherdata a)) = (options a ++ otherdata)%list /\
  List.length (options (snd (merge_domaindata otherdata a))) =
    List.length (options a) + List.length otherdata /\
  (forall ea eb,
     options a = [ea] -> otherdata = [eb] ->
     options (snd (merge_domaindata otherdata a)) = [ea; eb]) /\
  (forall e,
     options a = [e] -> otherdata = [e] ->
     options (snd (merge_domaindata otherdata a)) = [e; e]) /\
  docname (snd (merge_domaindata otherdata a)) = docname a /\
  temp_data (snd (merge_domaindata otherdata a)) = temp_data a /\
  kconfig_db (snd (merge_domaindata otherdata a)) = kconfig_db a.
Proof.
  unfold merge_domaindata, modify. cbn [fst snd set_options options docname
    temp_data kconfig_db].
  repeat split.
  - apply length_app.
  - now intros ea eb -> ->.
  - now intros e -> ->.
Qed.

End DomainFacts.

(* ================================================================== *)
(** * The search directive *)

Section SearchFacts.
Import KconfigDomain KconfigSearch.
Context {P : PySet}.

Lemma set_options_same (a : Sphinx) : set_options (options a) a = a.
Proof. now destruct a. Qed.

Lemma for_each_add_option (l : list string) :
  forall a,
    for_each l add_option a =
    (Ok tt,
     set_options (options a ++ map (option_entry (docname a)) l) a).
Proof.
  induction l as [|o l IH]; intros a; cbn [for_each map].
  - rewrite app_nil_r, set_options_same. reflexivity.
  - unfold bindP, add_option at 1, modify. rewrite IH.
    cbn [options docname set_options]. rewrite <- app_assoc. reflexivity.
Qed.



Lemma set_iter_in (l : list string) (x : string) : In x (set_iter l) <-> In x l.
Proof.
  rewrite <- (nodup_In string_dec l x). split; apply Permutation_in.
  - apply set_iter_perm.
  - symmetry. apply set_iter_perm.
Qed.

Lemma run_success (a : Sphinx) (db : list db_record) :
  kconfig_generate_db a = true ->
  has_key inserted_key (temp_data a) = false ->
  kconfig_db a = Some db ->
  run a = (Ok [KconfigSearchNode], after_run a db).
Proof.
  intros Hg Hk Hdb. unfold run, bindP, get, raise.
  rewrite Hg, Hk. cbn [negb]. unfold modify, env_kconfig_db.
  cbn [kconfig_db set_temp_data]. rewrite Hdb.
  rewrite for_each_add_option. reflexivity.
Qed.



End SearchFacts.

(* ================================================================== *)
(** * The loader *)

Section LoaderFacts.
Context {os : OS} {out : OutputTree}.

Lemma set_cwd_back (a : Sphinx) (d : string) : set_cwd (cwd a) (set_cwd d a) = a.
Proof. now destruct a. Qed.

(** C8, as the code has it.  The loader moves to the directory of the root
    file, parses from there, and moves back after the parse has returned:
    when the parse succeeds the working directory, and the whole state, is
    what it was before the call.  When the parse raises, the exception leaves
    the loader before the second [chdir], with the process still in the
    directory of the root file. *)
Theorem kconfig_load_restores_cwd (a : Sphinx) (d : string) :
  chdir (cwd a) (split_head (kconfig_root_path a)) = Some d ->
  chdir d (cwd a) = Some (cwd a) ->
  (forall kc,
     Kconfig_init d (kconfig_root_path a) = Some kc ->
     kconfig_load a = (Ok kc, a)) /\
  (Kconfig_init d (kconfig_root_path a) = None ->
   kconfig_load a = (Raise KconfigError, set_cwd d a)).
Proof.
  intros Hgo Hback.
  unfold kconfig_load, bindP, get, os_getcwd, os_chdir, Kconfig_new, ret.
  rewrite Hgo. cbn [cwd set_cwd]. split.
  - intros kc Hkc. rewrite Hkc. cbn [cwd set_cwd]. rewrite Hback.
    now rewrite set_cwd_back.
  - intros Hkc. now rewrite Hkc.
Qed.

Lemma kconfig_build_resources_disabled {R : Renderer} (dir : string)
  (a : Sphinx) :
  kconfig_generate_db a = false -> kconfig_build_resources dir a = (Ok tt, a).
Proof.
  intros H. unfold kconfig_build_resources, bindP, get, ret. now rewrite H.
Qed.

Lemma kconfig_build_resources_installs {R : Renderer} (dir : string)
  (a : Sphinx) (kc : Kconfig) (db : list db_record) :
  kconfig_generate_db a = true ->
  kconfig_load a = (Ok kc, a) ->
  build_db kc = Ok db ->
  mkdir (path_join (outdir a) "kconfig") = true ->
  write_json (path_join (path_join (outdir a) "kconfig") "kconfig.json") db =
    Written ->
  kconfig_build_resources dir a =
    (Ok tt,
     install_db db
       (path_join (path_join (outdir a) "kconfig") "kconfig.json") dir a).
Proof.
  intros Hg Hload Hdb Hmk Hw.
  unfold kconfig_build_resources, bindP, get, modify, path_mkdir, dump_json.
  rewrite Hg. cbn [negb]. rewrite Hload. unfold lift. rewrite Hdb.
  now rewrite Hmk, Hw.
Qed.

End LoaderFacts.

(* ================================================================== *)
(** * The properties on the example configuration *)

Section Witnesses.
Import Example KconfigDomain KconfigSearch.


Lemma one_record_per_site_witness :
  sc_ok (Sym B) = true /\
  exists rs,
    for_sc (R := Reference.renderer) (Sym B) [] = Ok rs /\ NoDup (map site rs) /\
    List.length rs = 1.
Proof.
  split; [reflexivity|].
  destruct (one_record_per_site (R := Reference.renderer) (Sym B) eq_refl) as (rs & E & N & _).
  exists rs. split; [exact E|split; [exact N|]].
  vm_compute in E. injection E as <-. reflexivity.
Defined.

Lemma records_need_prompt_or_help_witness :
  sc_ok (Sym C) = true /\ named (Sym C) = true /\
  for_sc (R := Reference.renderer) (Sym C) [] = Ok [].
Proof.
  split; [reflexivity|split; [reflexivity|]].
  destruct (records_need_prompt_or_help (R := Reference.renderer) (Sym C) eq_refl eq_refl)
    as (rs & E & _ & _ & Hnone).
  rewrite E. f_equal. apply Hnone.
  intros node [<-|[]]. reflexivity.
Defined.

(** C7 as stated fails: the site of [A] in the defconfig file has a help
    text, and the database holds a record for it. *)
Lemma defconfig_site_has_record :
  exists db r,
    build_db (R := Reference.renderer) kconfig = Ok db /\ In r db /\
    db_name r = "CONFIG_A" /\
    db_filename r = "boards/x_defconfig" /\
    contains "defconfig" (db_filename r) = true.
Proof.
  eexists. eexists. split; [vm_compute; reflexivity|].
  split; [right; left; reflexivity|].
  repeat split.
Qed.

Lemma per_symbol_fields_shared_witness :
  sc_ok (Sym A) = true /\
  exists rs,
    for_sc (R := Reference.renderer) (Sym A) [] = Ok rs /\ List.length rs = 2 /\
    forall r, In r rs ->
      db_alt_defaults r = [("y", "boards/x_defconfig")] /\
      db_selected_by r = ["CONFIG_B"] /\ db_implied_by r = [].
Proof.
  split; [reflexivity|].
  destruct (per_symbol_fields_shared (R := Reference.renderer) (Sym A) eq_refl)
    as (rs & E & H & _).
  exists rs. split; [exact E|]. split.
  - vm_compute in E. injection E as <-. reflexivity.
  - intros r Hr. exact (H r Hr).
Defined.

Lemma database_sorted_by_name_witness :
  forallb sc_ok (chain kconfig) = true /\
  exists db,
    build_db (R := Reference.renderer) kconfig = Ok db /\
    map db_name db = ["CONFIG_A"; "CONFIG_A"; "CONFIG_B"] /\
    StronglySorted (key_le db_name) db.
Proof.
  split; [reflexivity|].
  destruct (database_sorted_by_name (R := Reference.renderer) kconfig eq_refl)
    as (db & E & S & _).
  exists db. split; [exact E|split; [|exact S]].
  vm_compute in E. injection E as <-. reflexivity.
Defined.

Lemma sc_fmt_cases_witness :
  sc_fmt (R := Reference.renderer) (Choice None) = "&ltchoice&gt" /\
  html_text (sc_fmt (R := Reference.renderer) (Choice None)) = "<choice>" /\
  sc_fmt (R := Reference.renderer) (Choice (Some "MODE")) =
    "&ltchoice " ++ html_link "#CONFIG_MODE" "CONFIG_MODE" ++ "&gt".
Proof.
  destruct (sc_fmt_cases (R := Reference.renderer)) as (_ & _ & Hu & Hn & _).
  destruct (Hu None eq_refl) as [H1 H2].
  split; [exact H1|split; [exact H2|]].
  apply (Hn "MODE"). discriminate.
Defined.



Lemma resolve_xref_first_match_witness :
  resolve_xref registry "usage" "CONFIG_A" "CONFIG_A" =
    Some (make_refnode "usage" "index" "CONFIG_A" "CONFIG_A" "CONFIG_A") /\
  resolve_xref registry "usage" "CONFIG_Z" "CONFIG_Z" = None.
Proof.
  split.
  - apply (proj1 (resolve_xref_first_match registry "usage" "CONFIG_A"
                    "CONFIG_A") [] _ (tl registry) eq_refl eq_refl).
    intros o' [].
  - apply (proj2 (resolve_xref_first_match registry "usage" "CONFIG_Z"
                    "CONFIG_Z")).
    intros o [<-|[<-|[<-|[]]]]; discriminate.
Defined.

Lemma merge_domaindata_appends_witness :
  options (snd (merge_domaindata (tl registry)
                  (set_options [hd (option_entry "index" "X") registry] built))) =
    registry.
Proof.
  exact (proj1 (proj2 (merge_domaindata_appends (tl registry)
           (set_options [hd (option_entry "index" "X") registry] built)))).
Defined.

Lemma kconfig_load_restores_cwd_witness :
  kconfig_load (os := os) (app "/proj/Kconfig") =
    (Ok kconfig, app "/proj/Kconfig") /\
  cwd (snd (kconfig_load (os := os) (app "/proj/Kconfig"))) = "/proj/doc".
Proof.
  assert (H : kconfig_load (os := os) (app "/proj/Kconfig") =
              (Ok kconfig, app "/proj/Kconfig")).
  { apply (proj1 (kconfig_load_restores_cwd (os := os) (app "/proj/Kconfig")
                    "/proj" eq_refl eq_refl)).
    reflexivity. }
  split; [exact H|]. now rewrite H.
Defined.

(** C8 as stated fails: when the parse raises, the loader leaves the process
    in the directory of the root file. *)
Lemma kconfig_load_failure_leaves_cwd :
  fst (kconfig_load (os := os) (app "/proj/Broken")) = Raise KconfigError /\
  cwd (app "/proj/Broken") = "/proj/doc" /\
  cwd (snd (kconfig_load (os := os) (app "/proj/Broken"))) = "/proj".
Proof.
  repeat split.
Qed.

(** The builder end to end on the example: the database is installed in the
    environment and in the output tree, and the process is back in the
    directory it started from. *)
Example kconfig_build_resources_example :
  kconfig_build_resources (os := os) (out := Reference.out)
    (R := Reference.renderer) "static" (app "/proj/Kconfig") = (Ok tt, built) /\
  cwd built = "/proj/doc" /\
  option_map (map db_name) (kconfig_db built) =
    Some ["CONFIG_A"; "CONFIG_A"; "CONFIG_B"].
Proof.
  repeat split.
Qed.

End Witnesses.

(* ================================================================== *)
(** * Further properties: the registry *)

Section RegistryFacts.
Import KconfigDomain KconfigSearch.

Lemma resolve_xref_app (d1 d2 : list object) (fromdocname target contnode : string) :
  resolve_xref (d1 ++ d2) fromdocname target contnode =
  match resolve_xref d1 fromdocname target contnode with
  | Some r => Some r
  | None => resolve_xref d2 fromdocname target contnode
  end.
Proof.
  rewrite !resolve_xref_find.
  induction d1 as [|o d1 IH]; [reflexivity|].
  cbn [app find]. destruct (obj_name o =? target); [reflexivity|exact IH].
Qed.

Lemma resolve_xref_unregistered (data : list object)
  (fromdocname target contnode : string) :
  registered target data = false ->
  resolve_xref data fromdocname target contnode = None.
Proof.
  rewrite resolve_xref_find. unfold registered.
  induction data as [|o data IH]; [reflexivity|].
  cbn [existsb find]. destruct (obj_name o =? target); [discriminate|exact IH].
Qed.

Lemma resolve_xref_none_unregistered (data : list object)
  (fromdocname target contnode : string) :
  resolve_xref data fromdocname target contnode = None ->
  registered target data = false.
Proof.
  rewrite resolve_xref_find. unfold registered.
  induction data as [|o data IH]; [reflexivity|].
  cbn [existsb find]. destruct (obj_name o =? target); [discriminate|exact IH].
Qed.

Lemma resolve_xref_entries (doc : string) (l : list string)
  (fromdocname target contnode : string) :
  resolve_xref (map (option_entry doc) l) fromdocname target contnode =
  if mem target l
  then Some (make_refnode fromdocname doc target contnode target)
  else None.
Proof.
  rewrite resolve_xref_find. unfold mem.
  induction l as [|n l IH]; [reflexivity|].
  cbn [map find existsb option_entry obj_name]. rewrite (String.eqb_sym target n).
  destruct (n =? target) eqn:E; [|exact IH].
  apply String.eqb_eq in E. now subst.
Qed.

(** X1.  Registering an option and then resolving it: a name that was not in the
    registry resolves to the document being read, with the name as anchor; a
    name that was already registered keeps its first location; no other
    target is affected. *)
Theorem add_option_then_resolve (n : string) (a : Sphinx)
  (fromdocname contnode : string) :
  fst (add_option n a) = Ok tt /\
  (registered n (options a) = false ->
   resolve_xref (options (snd (add_option n a))) fromdocname n contnode =
     Some (make_refnode fromdocname (docname a) n contnode n)) /\
  (registered n (options a) = true ->
   resolve_xref (options (snd (add_option n a))) fromdocname n contnode =
     resolve_xref (options a) fromdocname n contnode) /\
  (forall target,
     target <> n ->
     resolve_xref (options (snd (add_option n a))) fromdocname target contnode =
       resolve_xref (options a) fromdocname target contnode).
Proof.
  unfold add_option, modify. cbn [fst snd options set_options].
  split; [reflexivity|].
  change [(n, n, "option", docname a, n, (-1)%Z)]
    with (map (option_entry (docname a)) [n]).
  split; [|split].
  - intros H. rewrite resolve_xref_app, (resolve_xref_unregistered _ _ _ _ H).
    rewrite resolve_xref_entries. unfold mem. cbn [existsb].
    now rewrite String.eqb_refl.
  - intros H. rewrite resolve_xref_app.
    destruct (resolve_xref (options a) fromdocname n contnode) eqn:E;
      [reflexivity|].
    apply resolve_xref_none_unregistered in E. congruence.
  - intros target Hne. rewrite resolve_xref_app, resolve_xref_entries.
    unfold mem. cbn [existsb]. apply String.eqb_neq in Hne. rewrite Hne.
    now destruct (resolve_xref (options a) fromdocname target contnode).
Qed.

End RegistryFacts.

Section RegistryComposition.
Import KconfigDomain KconfigSearch.

(** X2.  Resolution after a merge: the entries of the current registry win; a
    target they do not resolve is resolved by the merged-in entries. *)
Theorem merge_then_resolve (otherdata : list object) (a : Sphinx)
  (fromdocname target contnode : string) :
  resolve_xref (options (snd (merge_domaindata otherdata a)))
    fromdocname target contnode =
  match resolve_xref (options a) fromdocname target contnode with
  | Some r => Some r
  | None => resolve_xref otherdata fromdocname target contnode
  end.
Proof.
  unfold merge_domaindata, modify. cbn [snd options set_options].
  apply resolve_xref_app.
Qed.

Lemma mem_set_iter {P : PySet} (x : string) (l : list string) :
  mem x (set_iter l) = mem x l.
Proof.
  destruct (mem x l) eqn:E.
  - apply mem_true_iff. apply set_iter_in. now apply mem_true_iff.
  - apply mem_false_iff. rewrite set_iter_in. now apply mem_false_iff.
Qed.

(** X3.  Resolution after the search directive has run: a target the registry
    resolved before resolves as before; any other target resolves to the
    document of the directive, with the target as anchor, exactly when it is
    the name of a database record, and is unresolved otherwise. *)
Theorem run_then_resolve {P : PySet} (a : Sphinx) (db : list db_record)
  (fromdocname target contnode : string) :
  kconfig_generate_db a = true ->
  has_key inserted_key (temp_data a) = false ->
  kconfig_db a = Some db ->
  fst (run a) = Ok [KconfigSearchNode] /\
  resolve_xref (options (snd (run a))) fromdocname target contnode =
  match resolve_xref (options a) fromdocname target contnode with
  | Some r => Some r
  | None =>
      if mem target (map db_name db)
      then Some (make_refnode fromdocname (docname a) target contnode target)
      else None
  end.
Proof.
  intros Hg Hk Hdb. rewrite (run_success a db Hg Hk Hdb).
  split; [reflexivity|].
  cbn [snd after_run options set_options].
  now rewrite resolve_xref_app, resolve_xref_entries, mem_set_iter.
Qed.

End RegistryComposition.

(* ================================================================== *)
(** * Further properties: the page-install hook *)

Section InstallFacts.
Import FindKconfigSearchDirectiveVisitor.

Lemma walk_has_search : forall t found, walk t found = found || has_search t.
Proof.
  fix IH 1. intros [node children] found. cbn [walk has_search].
  unfold unknown_visit.
  assert (H : forall f,
    (fix walk_children (l : list doctree) (f : bool) : bool :=
       match l with
       | [] => f
       | child :: l' => walk_children l' (walk child f)
       end) children f = f || existsb has_search children).
  { induction children as [|c l IHl]; intros f.
    - now rewrite orb_false_r.
    - rewrite IHl, IH. cbn [existsb]. now rewrite orb_assoc. }
  rewrite H. destruct found; [reflexivity|].
  now destruct (is_search node).
Qed.

(** X4.  The visitor reports the directive exactly when some node of the tree,
    at any depth and position, is an instance of [KconfigSearchNode]; once
    found, the walk of further nodes does not reset the report. *)
Theorem visitor_finds_directive (t : doctree) :
  found_kconfig_search_directive (walk t init) = has_search t /\
  (forall node children,
     has_search (Tree node children) = true <->
     is_search node = true \/
     exists child, In child children /\ has_search child = true) /\
  walk t true = true.
Proof.
  unfold found_kconfig_search_directive, init.
  rewrite !walk_has_search. split; [reflexivity|]. split; [|reflexivity].
  intros node children. cbn [has_search].
  rewrite orb_true_iff, existsb_exists. reflexivity.
Qed.

(** X5.  The hook registers the style sheet and the module script, once each and
    after the assets already there, exactly for a page of an HTML build with
    database generation enabled whose tree holds the search directive; for
    every other page the assets are left as they are. *)
Theorem kconfig_install_on_search_pages (a : Sphinx) (format : string)
  (tree : option doctree) (assets : Assets) :
  kconfig_install a format tree assets =
  if kconfig_generate_db a && (format =? "html")
     && match tree with
        | Some t => has_search t
        | None => false
        end
  then with_search_assets assets
  else assets.
Proof.
  unfold kconfig_install, found_kconfig_search_directive, init.
  destruct (kconfig_generate_db a), (format =? "html"), tree as [t|];
    cbn [negb orb andb is_some]; try reflexivity.
  now rewrite walk_has_search.
Qed.

End InstallFacts.

(* ================================================================== *)
(** * Further properties: the loader and the builder's effects *)

Section EffectFacts.
Context {os : OS} {out : OutputTree}.

Lemma set_cwd_self (a : Sphinx) : set_cwd (cwd a) a = a.
Proof. now destruct a. Qed.

Lemma set_cwd_twice (c d : string) (a : Sphinx) :
  set_cwd c (set_cwd d a) = set_cwd c a.
Proof. reflexivity. Qed.

(** The loader changes nothing but the working directory. *)
Lemma kconfig_load_only_cwd (a : Sphinx) :
  exists c, snd (kconfig_load a) = set_cwd c a.
Proof.
  unfold kconfig_load, bindP, get, os_getcwd, os_chdir, Kconfig_new, ret.
  destruct (chdir (cwd a) (split_head (kconfig_root_path a))) as [d|];
    [|exists (cwd a); now rewrite set_cwd_self].
  cbn [cwd set_cwd].
  destruct (Kconfig_init d (kconfig_root_path a)) as [kc|];
    [|now exists d].
  cbn [cwd set_cwd].
  destruct (chdir d (cwd a)) as [c|]; [now exists c|now exists d].
Qed.

(** X6.  Failures of [os.chdir] in the loader.  When the directory of the root
    file cannot be entered, the loader raises before the parser is called and
    leaves the state as it was.  When the parse has succeeded but the
    previous directory cannot be entered again, the loader raises and the
    parsed configuration is lost, with the process left in the directory of
    the root file.  In every case only the working directory can differ
    afterwards. *)
Theorem kconfig_load_chdir_failures (a : Sphinx) :
  (chdir (cwd a) (split_head (kconfig_root_path a)) = None ->
   kconfig_load a = (Raise OSError, a)) /\
  (forall d kc,
     chdir (cwd a) (split_head (kconfig_root_path a)) = Some d ->
     Kconfig_init d (kconfig_root_path a) = Some kc ->
     chdir d (cwd a) = None ->
     kconfig_load a = (Raise OSError, set_cwd d a)) /\
  (exists c, snd (kconfig_load a) = set_cwd c a) /\
  (forall kc,
     fst (kconfig_load a) = Ok kc ->
     exists d,
       chdir (cwd a) (split_head (kconfig_root_path a)) = Some d /\
       Kconfig_init d (kconfig_root_path a) = Some kc).
Proof.
  split; [|split; [|split; [apply kconfig_load_only_cwd|]]];
    unfold kconfig_load, bindP, get, os_getcwd, os_chdir, Kconfig_new, ret.
  - intros H. now rewrite H.
  - intros d kc Hd Hkc Hb. rewrite Hd. cbn [cwd set_cwd].
    rewrite Hkc. cbn [cwd set_cwd]. now rewrite Hb.
  - intros kc.
    destruct (chdir (cwd a) (split_head (kconfig_root_path a))) as [d|] eqn:Ed;
      [|discriminate].
    cbn [cwd set_cwd].
    destruct (Kconfig_init d (kconfig_root_path a)) as [kc'|] eqn:Ek;
      [|discriminate].
    cbn [cwd set_cwd].
    destruct (chdir d (cwd a)); [|discriminate].
    cbn [fst]. intros [= ->]. exists d. split; [reflexivity|exact Ek].
Qed.

(** X7.  The outcomes of the builder.  With database generation disabled it
    does nothing.  When it returns normally, the environment's database and
    the JSON file hold the same records, those [build_db] computes for the
    loaded configuration, and the file's path and the resources directory
    have been appended to the two path lists.  When it raises, the path lists
    are as before, and either the loader or the traversal raised and nothing
    but the working directory can differ, or the directory or the file could
    not be written: then the environment already holds the new database,
    while the file is as before or no longer holds a database.  So the
    builder is not all-or-nothing: when the directory cannot be created, the
    database stays in the environment. *)
Theorem kconfig_build_resources_outcomes {R : Renderer}
  (resources_dir : string) (a : Sphinx) :
  (kconfig_generate_db a = false ->
   kconfig_build_resources resources_dir a = (Ok tt, a)) /\
  (kconfig_generate_db a = true ->
   fst (kconfig_build_resources resources_dir a) = Ok tt ->
   exists kc db c,
     fst (kconfig_load a) = Ok kc /\ build_db kc = Ok db /\
     snd (kconfig_build_resources resources_dir a) =
       install_db db (kconfig_db_file a) resources_dir (set_cwd c a) /\
     kconfig_db (snd (kconfig_build_resources resources_dir a)) = Some db /\
     kconfig_json (snd (kconfig_build_resources resources_dir a)) = Some db /\
     html_extra_path (snd (kconfig_build_resources resources_dir a)) =
       (html_extra_path a ++ [kconfig_db_file a])%list /\
     html_static_path (snd (kconfig_build_resources resources_dir a)) =
       (html_static_path a ++ [resources_dir])%list) /\
  (forall e,
     fst (kconfig_build_resources resources_dir a) = Raise e ->
     html_extra_path (snd (kconfig_build_resources resources_dir a)) =
       html_extra_path a /\
     html_static_path (snd (kconfig_build_resources resources_dir a)) =
       html_static_path a /\
     ((exists c, snd (kconfig_build_resources resources_dir a) = set_cwd c a) \/
      (exists kc db,
         fst (kconfig_load a) = Ok kc /\ build_db kc = Ok db /\ e = OSError /\
         kconfig_db (snd (kconfig_build_resources resources_dir a)) = Some db /\
         (kconfig_json (snd (kconfig_build_resources resources_dir a)) =
            kconfig_json a \/
          kconfig_json (snd (kconfig_build_resources resources_dir a)) = None)))) /\
  (forall kc db c,
     kconfig_generate_db a = true ->
     kconfig_load a = (Ok kc, set_cwd c a) ->
     build_db kc = Ok db ->
     mkdir (path_join (outdir a) "kconfig") = false ->
     kconfig_build_resources resources_dir a =
       (Raise OSError, set_kconfig_db db (set_cwd c a))).
Proof.
  unfold kconfig_db_file.
  split; [|split; [|split]].
  - intros H. unfold kconfig_build_resources, bindP, get, ret. now rewrite H.
  - intros Hg.
    unfold kconfig_build_resources, bindP, get, modify, path_mkdir, dump_json.
    rewrite Hg. cbn [negb]. destruct (kconfig_load_only_cwd a) as (c & Hc).
    destruct (kconfig_load a) as [[kc|e] a'] eqn:E; [|discriminate].
    cbn [snd] in Hc. subst a'. unfold lift.
    destruct (build_db kc) as [db|e] eqn:Edb; [|discriminate].
    destruct (mkdir (path_join (outdir a) "kconfig")); [|discriminate].
    destruct (write_json _ db); try discriminate.
    intros _. exists kc, db, c. repeat split. exact Edb.
  - intros e.
    unfold kconfig_build_resources, bindP, get, ret, modify, path_mkdir,
      dump_json.
    destruct (kconfig_generate_db a); cbn [negb]; [|discriminate].
    destruct (kconfig_load_only_cwd a) as (c & Hc).
    destruct (kconfig_load a) as [[kc|e'] a'] eqn:E; cbn [snd] in Hc; subst a'.
    + unfold lift. destruct (build_db kc) as [db|e''] eqn:Edb.
      * destruct (mkdir (path_join (outdir a) "kconfig")).
        -- destruct (write_json _ db); [discriminate| |];
             intros [= <-]; (split; [reflexivity|split; [reflexivity|]]);
             right; exists kc, db; repeat split; try exact Edb;
             [now left|now right].
        -- intros [= <-]. split; [reflexivity|split; [reflexivity|]].
           right. exists kc, db. repeat split; [exact Edb|now left].
      * intros _. split; [reflexivity|split; [reflexivity|]].
        left. now exists c.
    + intros _. split; [reflexivity|split; [reflexivity|]].
      left. now exists c.
  - intros kc db c Hg Hload Hdb Hmk.
    unfold kconfig_build_resources, bindP, get, modify, path_mkdir.
    rewrite Hg. cbn [negb]. rewrite Hload. unfold lift. rewrite Hdb.
    now rewrite Hmk.
Qed.

End EffectFacts.

(* ================================================================== *)
(** * Further properties: the records *)

Lemma string_append_assoc (a b c : string) : (a ++ b) ++ c = a ++ b ++ c.
Proof.
  induction a as [|x a IH]; simpl; [reflexivity|now rewrite IH].
Qed.

Lemma join_app (l1 l2 : list string) : join (l1 ++ l2) = join l1 ++ join l2.
Proof.
  unfold join. induction l1 as [|x l1 IH]; simpl; [reflexivity|].
  now rewrite IH, string_append_assoc.
Qed.

Section FieldFacts.
Context {R : Renderer}.

Lemma menupath_walk_join (up : list (option (string * expr) * item)) :
  forall acc,
    menupath_walk up acc =
    join (map (fun u => " > " ++ ancestor_title u) (rev up)) ++ acc.
Proof.
  induction up as [|[p it] up IH]; intros acc; [reflexivity|].
  cbn [menupath_walk rev]. rewrite IH, map_app, join_app.
  cbn [map]. unfold join at 2. cbn [fold_right].
  rewrite string_append_assoc. f_equal.
  unfold ancestor_title. cbn [fst snd].
  destruct p as [[text c]|]; simpl; now rewrite string_append_assoc.
Qed.

(** X9.  The breadcrumb starts at the root: it is [(Top)] followed by one
    segment per ancestor, the outermost ancestor first and the parent of the
    node last, each segment the ancestor's prompt text or, without a prompt,
    the library's rendering of its item.  A node directly under the top node
    has the breadcrumb [(Top)]. *)
Theorem menupath_root_first (node : MenuNode) :
  menupath_of node =
    "(Top)" ++
    join (map (fun u => " > " ++ ancestor_title u) (rev (ancestors node))) /\
  (ancestors node = [] -> menupath_of node = "(Top)") /\
  (forall parent up,
     ancestors node = parent :: up ->
     exists before,
       menupath_of node = before ++ " > " ++ ancestor_title parent).
Proof.
  unfold menupath_of. rewrite menupath_walk_join.
  assert (E : forall s, s ++ EmptyString = s)
    by (induction s as [|x s IH]; simpl; [reflexivity|now rewrite IH]).
  rewrite E. split; [reflexivity|]. split.
  - now intros ->.
  - intros parent up ->. cbn [rev]. rewrite map_app, join_app.
    cbn [map]. unfold join at 2. cbn [fold_right]. rewrite E.
    exists ("(Top)" ++
            join (map (fun u => " > " ++ ancestor_title u) (rev up))).
    now rewrite string_append_assoc.
Qed.

(** X10.  The alternative defaults of a symbol are the defaults of its nodes from
    files whose name contains [defconfig], each paired with that file name,
    whether or not the node has a prompt or a help text; nodes of other files
    contribute nothing. *)
Theorem alt_defaults_from_defconfig_nodes (ns : list MenuNode)
  (e : string * string) :
  (In e (alt_defaults_of ns) <->
   exists node v c,
     In node ns /\ contains "defconfig" (filename node) = true /\
     In (v, c) (orig_defaults node) /\
     e = (fmt_if v c, filename node)) /\
  ((forall node, In node ns -> contains "defconfig" (filename node) = false) ->
   alt_defaults_of ns = []).
Proof.
  unfold alt_defaults_of. split.
  - rewrite in_flat_map. split.
    + intros (node & Hin & He).
      destruct (contains "defconfig" (filename node)) eqn:Ec;
        cbn [negb] in He; [|destruct He].
      apply in_map_iff in He. destruct He as ([v c] & <- & Hvc).
      now exists node, v, c.
    + intros (node & v & c & Hin & Ec & Hvc & ->).
      exists node. split; [exact Hin|]. rewrite Ec. cbn [negb].
      apply in_map_iff. now exists (v, c).
  - intros H. induction ns as [|node ns IH]; [reflexivity|].
    cbn [flat_map]. rewrite (H node (or_introl eq_refl)). cbn [negb app].
    apply IH. intros m Hm. apply H. now right.
Qed.

(** X11.  The number of records of a symbol or choice is the number of distinct
    (filename, line number) pairs among its nodes with a prompt or a help
    text; it never exceeds the number of its nodes. *)
Theorem record_count (x : sc) :
  sc_ok x = true ->
  named x = true ->
  exists rs,
    for_sc x [] = Ok rs /\
    List.length rs =
      List.length
        (nodup site_dec (map site_of (filter with_prompt_or_help (nodes x)))) /\
    List.length rs <= List.length (nodes x).
Proof.
  intros Hok Hn. exists (records_of x).
  split; [exact (for_sc_named x [] Hn Hok)|].
  assert (P : Permutation (map site (records_of x))
                (nodup site_dec
                   (map site_of (filter with_prompt_or_help (nodes x))))).
  { apply NoDup_Permutation.
    - rewrite records_of_sites. apply first_sites_nodup.
    - apply NoDup_nodup.
    - intros s. rewrite nodup_In, records_of_sites, !in_map_iff. split.
      + intros (node & <- & H). exists node. split; [reflexivity|].
        now apply first_sites_incl in H.
      + intros (node & <- & H).
        destruct (first_sites_cover _ [] _ H) as [[]|Hk].
        now apply in_map_iff in Hk. }
  apply Permutation_length in P. rewrite length_map in P.
  split; [exact P|]. rewrite P.
  etransitivity; [apply NoDup_incl_length;
    [apply NoDup_nodup|intros s Hs; apply nodup_In in Hs; exact Hs]|].
  rewrite length_map. apply filter_length_le.
Qed.

(** X12.  A symbol declared at a single site has exactly one record when the site
    carries a prompt or a help text, and none otherwise.  The record has the
    symbol's prefixed name and the site's position, and its [dependencies]
    field is empty exactly when the site's dependency is the constant [y]. *)
Theorem single_site_record (x : sc) (node : MenuNode) :
  sc_ok x = true ->
  named x = true ->
  nodes x = [node] ->
  (with_prompt_or_help node = true ->
   exists r,
     for_sc x [] = Ok [r] /\
     db_name r = "CONFIG_" ++ fmt (name x) /\
     site r = site_of node /\
     (db_dependencies r = None <-> is_obj (dep node) const_y = true)) /\
  (with_prompt_or_help node = false -> for_sc x [] = Ok []).
Proof.
  intros Hok Hn Hnodes. rewrite (for_sc_named x [] Hn Hok). cbn [app].
  unfold records_of. rewrite Hnodes. cbn [filter]. split; intros H; rewrite H.
  - cbn [first_sites site_mem existsb map]. eexists. split; [reflexivity|].
    repeat split; cbn [site_record record_of db_dependencies];
      destruct (is_obj (dep node) const_y); congruence.
  - reflexivity.
Qed.

(** X13.  Every documented site is in the database: for a named symbol or choice
    of the configuration, each node with a prompt or a help text has a record
    under the symbol's prefixed name and the node's (filename, line number)
    pair. *)
Theorem database_complete (k : Kconfig) :
  forallb sc_ok (chain k) = true ->
  exists db,
    build_db k = Ok db /\
    forall x node,
      In x (chain k) -> named x = true ->
      In node (nodes x) -> with_prompt_or_help node = true ->
      exists r,
        In r db /\ db_name r = "CONFIG_" ++ fmt (name x) /\
        site r = site_of node.
Proof.
  intros H. eexists. split; [exact (build_db_total k H)|].
  intros x node Hx Hn Hnode Hp.
  assert (Hf : In node (filter with_prompt_or_help (nodes x)))
    by (apply filter_In; now split).
  destruct (first_sites_cover _ [] _ Hf) as [[]|Hk].
  rewrite <- records_of_sites in Hk. apply in_map_iff in Hk.
  destruct Hk as (r & Er & Hr). exists r. split; [|split].
  - apply in_flat_map. exists x. split; [|exact Hr].
    apply filter_In. split; [|exact Hn].
    apply (Permutation_in _ (Permutation_sym (sorted_perm sort_key (chain k)))).
    exact Hx.
  - now apply records_of_name.
  - exact Er.
Qed.

End FieldFacts.

(* ================================================================== *)
(** * Further properties: from the builder to the references *)

Section Pipeline.
Import KconfigDomain KconfigSearch.
Context {os : OS} {out : OutputTree} {R : Renderer} {P : PySet}.

Lemma kconfig_build_resources_success (resources_dir : string) (a : Sphinx) :
  kconfig_generate_db a = true ->
  fst (kconfig_build_resources resources_dir a) = Ok tt ->
  exists db c,
    snd (kconfig_build_resources resources_dir a) =
      install_db db (kconfig_db_file a) resources_dir (set_cwd c a).
Proof.
  intros Hg.
  unfold kconfig_build_resources, bindP, get, modify, path_mkdir, dump_json.
  rewrite Hg. cbn [negb]. destruct (kconfig_load_only_cwd a) as (c & Hc).
  destruct (kconfig_load a) as [[kc|e] a'] eqn:E; [|discriminate].
  cbn [snd] in Hc. subst a'. unfold lift.
  destruct (build_db kc) as [db|e] eqn:Edb; [|discriminate].
  destruct (mkdir (path_join (outdir a) "kconfig")); [|discriminate].
  destruct (write_json _ db); try discriminate.
  intros _. now exists db, c.
Qed.

Lemma resolve_after_run (a : Sphinx) (db : list db_record)
  (fromdocname target contnode : string) :
  resolve_xref (options (after_run a db)) fromdocname target contnode =
  match resolve_xref (options a) fromdocname target contnode with
  | Some r => Some r
  | None =>
      if mem target (map db_name db)
      then Some (make_refnode fromdocname (docname a) target contnode target)
      else None
  end.
Proof.
  cbn [after_run options set_options].
  now rewrite resolve_xref_app, resolve_xref_entries, mem_set_iter.
Qed.

(** X14.  After the builder has returned normally, the search directive finds the
    database it needs: its first run succeeds, and the name of every record
    that was not registered before resolves to the page of the directive,
    with the record's name as anchor. *)
Theorem build_then_search (resources_dir : string) (a : Sphinx)
  (fromdocname contnode : string) :
  kconfig_generate_db a = true ->
  has_key inserted_key (temp_data a) = false ->
  fst (kconfig_build_resources resources_dir a) = Ok tt ->
  exists db,
    kconfig_db (snd (kconfig_build_resources resources_dir a)) = Some db /\
    fst (run (snd (kconfig_build_resources resources_dir a))) =
      Ok [KconfigSearchNode] /\
    forall r,
      In r db ->
      registered (db_name r) (options a) = false ->
      resolve_xref
        (options (snd (run (snd (kconfig_build_resources resources_dir a)))))
        fromdocname (db_name r) contnode =
      Some (make_refnode fromdocname (docname a) (db_name r) contnode
              (db_name r)).
Proof.
  intros Hg Hk Hok.
  destruct (kconfig_build_resources_success resources_dir a Hg Hok)
    as (db & c & ->).
  exists db. split; [reflexivity|].
  rewrite (run_success
             (install_db db (kconfig_db_file a) resources_dir (set_cwd c a))
             db Hg Hk eq_refl).
  split; [reflexivity|]. intros r Hr Hreg. cbn [snd].
  rewrite resolve_after_run.
  cbn [install_db register_paths set_kconfig_json set_kconfig_db set_cwd
       options docname].
  rewrite (resolve_xref_unregistered _ _ _ _ Hreg).
  assert (M : mem (db_name r) (map db_name db) = true)
    by (apply mem_true_iff; now apply in_map).
  now rewrite M.
Qed.

End Pipeline.

(** X8.  A root path without a directory part cannot be loaded: the directory
    that [os.path.split] gives for it is the empty string, which [os.chdir]
    refuses, so the loader raises before the parser is called, whatever the
    parser would have returned. *)
Theorem bare_root_path_fails (parse : string -> string -> option Kconfig)
  (a : Sphinx) :
  occurs Reference.slash (kconfig_root_path a) = false ->
  Reference.split_head (kconfig_root_path a) = EmptyString /\
  kconfig_load
    (os := {| split_head := Reference.split_head;
              chdir := Reference.chdir;
              Kconfig_init := parse |}) a = (Raise OSError, a).
Proof.
  intros H.
  assert (E : Reference.rsplit_slash (kconfig_root_path a) = None).
  { induction (kconfig_root_path a) as [|c s IH]; [reflexivity|].
    cbn [occurs] in H. apply orb_false_iff in H. destruct H as [Hc Hs].
    cbn [Reference.rsplit_slash]. now rewrite (IH Hs), Hc. }
  assert (S : Reference.split_head (kconfig_root_path a) = EmptyString)
    by (unfold Reference.split_head; now rewrite E).
  split; [exact S|].
  unfold kconfig_load, bindP, get, os_getcwd, os_chdir. cbn [split_head chdir].
  now rewrite S.
Qed.

(* ================================================================== *)
(** * The further properties on the example configuration *)

Section FurtherWitnesses.
Import Example KconfigDomain KconfigSearch.

Lemma add_option_then_resolve_witness :
  resolve_xref (options (snd (add_option "CONFIG_A" built))) "usage" "CONFIG_A"
    "CONFIG_A" =
    Some (make_refnode "usage" "index" "CONFIG_A" "CONFIG_A" "CONFIG_A") /\
  resolve_xref (options (snd (add_option "CONFIG_A" built))) "usage" "CONFIG_B"
    "CONFIG_B" = None.
Proof.
  destruct (add_option_then_resolve "CONFIG_A" built "usage" "CONFIG_A")
    as (_ & H & _ & _).
  destruct (add_option_then_resolve "CONFIG_A" built "usage" "CONFIG_B")
    as (_ & _ & _ & H').
  split; [exact (H eq_refl)|].
  rewrite H' by discriminate. reflexivity.
Defined.

Lemma run_then_resolve_witness :
  resolve_xref (options (snd (run (P := Reference.pyset) built))) "usage"
    "CONFIG_B" "CONFIG_B" =
    Some (make_refnode "usage" "index" "CONFIG_B" "CONFIG_B" "CONFIG_B") /\
  resolve_xref (options (snd (run (P := Reference.pyset) built))) "usage"
    "CONFIG_C" "CONFIG_C" = None.
Proof.
  split.
  - exact (proj2 (run_then_resolve (P := Reference.pyset) built db "usage"
                    "CONFIG_B" "CONFIG_B" eq_refl eq_refl eq_refl)).
  - exact (proj2 (run_then_resolve (P := Reference.pyset) built db "usage"
                    "CONFIG_C" "CONFIG_C" eq_refl eq_refl eq_refl)).
Defined.

Lemma kconfig_load_chdir_failures_witness :
  kconfig_load (os := os) (app "Kconfig") = (Raise OSError, app "Kconfig").
Proof.
  exact (proj1 (kconfig_load_chdir_failures (os := os) (app "Kconfig"))
           eq_refl).
Defined.

Lemma kconfig_build_resources_outcomes_witness :
  kconfig_db
    (snd (kconfig_build_resources (os := os) (out := Reference.out)
            (R := Reference.renderer) "static" (app "/proj/Kconfig"))) =
    Some db /\
  (exists c,
     snd (kconfig_build_resources (os := os) (out := Reference.out)
            (R := Reference.renderer) "static" (app "/proj/Broken")) =
       set_cwd c (app "/proj/Broken")) /\
  kconfig_build_resources (os := os) (out := readonly_out)
    (R := Reference.renderer) "static" (app "/proj/Kconfig") =
    (Raise OSError, set_kconfig_db db (app "/proj/Kconfig")).
Proof.
  destruct (kconfig_build_resources_outcomes (os := os) (out := Reference.out)
              (R := Reference.renderer) "static" (app "/proj/Kconfig"))
    as (_ & Hok & _ & _).
  destruct (kconfig_build_resources_outcomes (os := os) (out := Reference.out)
              (R := Reference.renderer) "static" (app "/proj/Broken"))
    as (_ & _ & Hraise & _).
  destruct (kconfig_build_resources_outcomes (os := os) (out := readonly_out)
              (R := Reference.renderer) "static" (app "/proj/Kconfig"))
    as (_ & _ & _ & Hlate).
  split; [|split].
  - destruct (Hok eq_refl eq_refl) as (kc & db' & c & _ & _ & _ & H & _).
    rewrite H. f_equal. vm_compute in H. now injection H.
  - destruct (Hraise KconfigError eq_refl) as (_ & _ & [H|H]); [exact H|].
    destruct H as (kc & db' & H & _). discriminate H.
  - exact (Hlate kconfig db "/proj/doc" eq_refl eq_refl eq_refl eq_refl).
Defined.

Lemma menupath_root_first_witness :
  menupath_of (R := Reference.renderer) nested = "(Top) > Main > Drivers" /\
  exists before,
    menupath_of (R := Reference.renderer) nested = before ++ " > Drivers".
Proof.
  destruct (menupath_root_first (R := Reference.renderer) nested)
    as (H & _ & Hlast).
  split; [rewrite H; reflexivity|].
  exact (Hlast _ _ eq_refl).
Defined.

Lemma alt_defaults_from_defconfig_nodes_witness :
  In ("y", "boards/x_defconfig")
     (alt_defaults_of (R := Reference.renderer) (sym_nodes A)) /\
  alt_defaults_of (R := Reference.renderer) (sym_nodes B) = [].
Proof.
  split.
  - apply (proj1 (alt_defaults_from_defconfig_nodes
                    (R := Reference.renderer) (sym_nodes A)
                    ("y", "boards/x_defconfig"))).
    exists A_board, y, y.
    split; [right; now left|].
    split; [reflexivity|]. split; [now left|reflexivity].
  - apply (proj2 (alt_defaults_from_defconfig_nodes
                    (R := Reference.renderer) (sym_nodes B) ("", ""))).
    intros node [<-|[<-|[]]]; reflexivity.
Defined.

Lemma record_count_witness :
  sc_ok (Sym B) = true /\ named (Sym B) = true /\
  exists rs,
    for_sc (R := Reference.renderer) (Sym B) [] = Ok rs /\
    List.length rs = 1 /\ List.length (nodes (Sym B)) = 2.
Proof.
  split; [reflexivity|split; [reflexivity|]].
  destruct (record_count (R := Reference.renderer) (Sym B) eq_refl eq_refl)
    as (rs & E & H & _).
  exists rs. split; [exact E|]. split; [rewrite H|]; reflexivity.
Defined.

Lemma single_site_record_witness :
  exists r,
    for_sc (R := Reference.renderer) (Sym D) [] = Ok [r] /\
    db_name r = "CONFIG_D" /\
    db_dependencies r = Some (html_link "#CONFIG_A" "CONFIG_A").
Proof.
  destruct (single_site_record (R := Reference.renderer) (Sym D) nested
              eq_refl eq_refl eq_refl) as (H & _).
  destruct (H eq_refl) as (r & E & Hn & _ & _).
  exists r. split; [exact E|]. split; [exact Hn|].
  vm_compute in E. now injection E as <-.
Defined.

Lemma database_complete_witness :
  exists db r,
    build_db (R := Reference.renderer) kconfig = Ok db /\ In r db /\
    db_name r = "CONFIG_A" /\ site r = ("boards/x_defconfig", 1%Z).
Proof.
  destruct (database_complete (R := Reference.renderer) kconfig eq_refl)
    as (db' & E & H).
  destruct (H (Sym A) A_board) as (r & Hr & Hn & Hs);
    try reflexivity; [right; right; now left|right; now left|].
  now exists db', r.
Defined.

Lemma build_then_search_witness :
  exists a',
    run (P := Reference.pyset)
      (snd (kconfig_build_resources (os := os) (out := Reference.out)
              (R := Reference.renderer) "static" (app "/proj/Kconfig"))) =
      (Ok [KconfigSearchNode], a') /\
    resolve_xref (options a') "usage" "CONFIG_A" "CONFIG_A" =
      Some (make_refnode "usage" "index" "CONFIG_A" "CONFIG_A" "CONFIG_A").
Proof.
  destruct (build_then_search (os := os) (out := Reference.out)
              (R := Reference.renderer)
              (P := Reference.pyset) "static" (app "/proj/Kconfig") "usage"
              "CONFIG_A" eq_refl eq_refl eq_refl) as (db' & Hdb & Hrun & Hres).
  eexists. split; [apply surjective_pairing|].
  vm_compute in Hdb. injection Hdb as <-.
  exact (Hres _ (or_introl eq_refl) eq_refl).
Defined.

Lemma bare_root_path_fails_witness :
  kconfig_load (os := os) (app "Kconfig") = (Raise OSError, app "Kconfig") /\
  cwd (app "Kconfig") = "/proj/doc".
Proof.
  split; [|reflexivity].
  exact (proj2 (bare_root_path_fails (Kconfig_init (OS := os)) (app "Kconfig")
                  eq_refl)).
Defined.

Lemma visitor_finds_directive_witness :
  FindKconfigSearchDirectiveVisitor.walk search_page
    FindKconfigSearchDirectiveVisitor.init = true /\
  FindKconfigSearchDirectiveVisitor.walk plain_page
    FindKconfigSearchDirectiveVisitor.init = false.
Proof.
  split.
  - exact (proj1 (visitor_finds_directive search_page)).
  - exact (proj1 (visitor_finds_directive plain_page)).
Defined.

Lemma kconfig_install_on_search_pages_witness :
  kconfig_install built "html" (Some search_page) no_assets =
    {| css_files := ["kconfig.css"]; js_files := [("kconfig.js", "module")] |} /\
  kconfig_install built "html" (Some plain_page) no_assets = no_assets /\
  kconfig_install built "latex" (Some search_page) no_assets = no_assets /\
  kconfig_install built "html" None no_assets = no_assets.
Proof.
  split; [|split; [|split]].
  - exact (kconfig_install_on_search_pages built "html" (Some search_page)
             no_assets).
  - exact (kconfig_install_on_search_pages built "html" (Some plain_page)
             no_assets).
  - exact (kconfig_install_on_search_pages built "latex" (Some search_page)
             no_assets).
  - exact (kconfig_install_on_search_pages built "html" None no_assets).
Defined.

End FurtherWitnesses.

(* ================================================================== *)
(** * Further properties: the order of the database *)

Lemma Permutation_filter_same {A : Type} (f : A -> bool) (l l' : list A) :
  Permutation l l' -> Permutation (filter f l) (filter f l').
Proof.
  induction 1 as [|x l l' H IH|x y l|l l' l'' H1 IH1 H2 IH2]; cbn [filter].
  - constructor.
  - destruct (f x); [now constructor|exact IH].
  - destruct (f x), (f y); try reflexivity. apply perm_swap.
  - now transitivity (filter f l').
Qed.

Lemma NoDup_key_inj {A : Type} (key : A -> string) (l : list A) (a b : A) :
  NoDup (map key l) -> In a l -> In b l -> key a = key b -> a = b.
Proof.
  induction l as [|x l IH]; [easy|].
  cbn [map]. intros N [->|Ha] [->|Hb] E; inversion N as [|? ? Hx Hl]; subst.
  - reflexivity.
  - exfalso. apply Hx. rewrite E. now apply in_map.
  - exfalso. apply Hx. rewrite <- E. now apply in_map.
  - now apply IH.
Qed.

(** Two sorted arrangements of the same elements coincide when no two
    elements share a key. *)
Lemma sorted_arrangement_unique {A : Type} (key : A -> string) (l1 : list A) :
  forall l2,
    StronglySorted (key_le key) l1 -> StronglySorted (key_le key) l2 ->
    Permutation l1 l2 -> NoDup (map key l1) -> l1 = l2.
Proof.
  induction l1 as [|a l1 IH]; intros l2 S1 S2 P N.
  - apply Permutation_nil in P. now subst.
  - destruct l2 as [|b l2];
      [apply Permutation_sym, Permutation_nil in P; discriminate|].
    inversion S1 as [|? ? S1' F1]; subst.
    inversion S2 as [|? ? S2' F2]; subst.
    rewrite Forall_forall in F1, F2.
    assert (E : a = b).
    { assert (Ha : In a (b :: l2))
        by (apply (Permutation_in _ P); now left).
      assert (Hb : In b (a :: l1))
        by (apply (Permutation_in _ (Permutation_sym P)); now left).
      destruct Ha as [->|Ha]; [reflexivity|].
      destruct Hb as [->|Hb]; [reflexivity|].
      apply (NoDup_key_inj key (a :: l1)); [exact N|now left|now right|].
      apply String.leb_antisym; [now apply F1|now apply F2]. }
    subst b. f_equal. apply IH; try assumption.
    + now apply Permutation_cons_inv with a.
    + now inversion N.
Qed.

(** X15.  The database does not depend on the order in which the library lists
    the symbols and choices, as long as no two named ones share a name: two
    configurations with the same symbols and choices, listed in any order,
    give the same database. *)
Theorem build_db_order_independent {R : Renderer} (k k' : Kconfig) :
  forallb sc_ok (chain k) = true ->
  Permutation (chain k) (chain k') ->
  NoDup (map sort_key (filter named (chain k))) ->
  exists db, build_db k = Ok db /\ build_db k' = Ok db.
Proof.
  intros Hok P N.
  assert (Hok' : forallb sc_ok (chain k') = true).
  { apply forallb_forall. intros x Hx. rewrite forallb_forall in Hok.
    apply Hok. now apply (Permutation_in _ (Permutation_sym P)). }
  rewrite (build_db_total k Hok), (build_db_total k' Hok').
  eexists. split; [reflexivity|]. do 2 f_equal. symmetry.
  assert (Ps : Permutation (filter named (sorted sort_key (chain k)))
                 (filter named (chain k)))
    by apply Permutation_filter_same, sorted_perm.
  apply (sorted_arrangement_unique sort_key).
  - apply StronglySorted_filter, sorted_sorted.
  - apply StronglySorted_filter, sorted_sorted.
  - rewrite Ps. rewrite (Permutation_filter_same named _ _ P).
    symmetry. apply Permutation_filter_same, sorted_perm.
  - apply (Permutation_NoDup (l := map sort_key (filter named (chain k))));
      [|exact N].
    apply Permutation_map. now symmetry.
Qed.

Lemma build_db_order_independent_witness :
  exists db,
    build_db (R := Reference.renderer) Example.kconfig = Ok db /\
    build_db (R := Reference.renderer)
      {| unique_defined_syms := [Example.A; Example.B; Example.C];
         unique_choices := [Example.unnamed] |} = Ok db.
Proof.
  apply (build_db_order_independent (R := Reference.renderer)).
  - reflexivity.
  - unfold chain. cbn [map app unique_defined_syms unique_choices Example.kconfig].
    apply Permutation_trans with
      [Sym Example.B; Sym Example.C; Sym Example.A; Cho Example.unnamed];
      [apply perm_swap|].
    apply Permutation_trans with
      [Sym Example.B; Sym Example.A; Sym Example.C; Cho Example.unnamed];
      [apply perm_skip, perm_swap|apply perm_swap].
  - cbn. constructor; [intros [H|[H|[]]]; discriminate|].
    constructor; [intros [H|[]]; discriminate|].
    constructor; [intros []|constructor].
Defined.
